(** * PicoScope 6000E mid-level driver: session, status and buffer registry

    A shallow embedding of the parts of [ps6000a/ps6000a.py],
    [ps6000a/buffers.py], [ps6000a/exceptions.py], [ps6000a/types.py],
    [ps6000a/functions.py] and [ps6000a/callbacks.py] that manage the
    session handle, translate driver status codes, keep the registry of
    data buffers and retain callback trampolines.

    Python integers (and the [IntEnum]/[IntFlag] members built on them) are
    [Z].  A method of [PS6000A] is a computation in the monad [Py]: it
    threads the session object, the history of calls made to the vendor DLL
    and the warnings logged, and it either returns or raises.  State changes
    made before an exception is raised persist, as they do in Python. *)

From Stdlib Require Import ZArith.
From stdpp Require Import base option list gmap strings.

Local Open Scope Z_scope.

(** ** Exceptions *)

Inductive PyError : Type :=
| ValueError (msg : string)
| TypeError (msg : string)
| KeyError
| RuntimeError (msg : string)
| PicoHandleError (handle : option Z) (message : string)
| PicoStatusError (status : Z)
| AttributeError
| OverflowError
| MemoryError
| UnicodeEncodeError.

Inductive Outcome (A : Type) : Type :=
| Returns (a : A)
| Raises (e : PyError).
Arguments Returns {A} a.
Arguments Raises {A} e.

#[global] Instance Outcome_ret : MRet Outcome := λ A a, Returns a.
#[global] Instance Outcome_bind : MBind Outcome := λ A B f m,
  match m with
  | Returns a => f a
  | Raises e => Raises e
  end.

(** ** constants.py *)

Module PicoStatus.
Definition NOT_YET_RUN : Z := -1.
Definition OK : Z := 0x00000000.
Definition NOT_FOUND : Z := 0x00000003.
Definition INVALID_HANDLE : Z := 0x0000000C.
Definition WAITING_FOR_DATA_BUFFERS : Z := 0x00000197.
End PicoStatus.

Module PicoAction.
Definition CLEAR_ALL : Z := 0x00000001.
Definition ADD : Z := 0x00000002.
End PicoAction.

Module PicoRatioMode.
Definition AGGREGATE : Z := 0x00000001.
Definition DECIMATE : Z := 0x00000002.
Definition AVERAGE : Z := 0x00000004.
Definition RAW : Z := 0x80000000.
End PicoRatioMode.

Module PicoChannel.
Definition CHANNEL_A : Z := 0x00.
Definition CHANNEL_B : Z := 0x01.
End PicoChannel.

Module PicoDataType.
Definition INT8_T : Z := 0.
Definition INT16_T : Z := 1.
Definition INT32_T : Z := 2.
Definition UINT32_T : Z := 3.
Definition INT64_T : Z := 4.

(** [sizeof(data_type.ctype)]: the [ctype] property raises [ValueError]
    for a value outside the [_ctypes] table. *)
Definition sizeof_ctype (data_type : Z) : Outcome Z :=
  if data_type =? INT8_T then Returns 1
  else if data_type =? INT16_T then Returns 2
  else if data_type =? INT32_T then Returns 4
  else if data_type =? UINT32_T then Returns 4
  else if data_type =? INT64_T then Returns 8
  else Raises (ValueError "No known ctype for PicoDataType"%string).
End PicoDataType.

(** ** types.py *)

Module PicoHandle.
(** [PicoHandle.valid]: [self > 0]. *)
Definition valid (self : Z) : bool := 0 <? self.
End PicoHandle.

(** What a [c_uint32] field holds after an integer is stored in it. *)
Definition c_uint32 (value : Z) : Z := value mod 2 ^ 32.

Record PicoStreamingDataInfo := {
  _channel : Z;
  _mode : Z;
  _type : Z;
  no_of_samples : Z;
  buffer_index : Z;
  start_index : Z;
  _overflow : Z
}.

Record PicoStreamingDataTriggerInfo := {
  trigger_at : Z;
  _triggered : Z;
  _auto_stop : Z
}.

(** ** exceptions.py *)

(** [PicoStatusError(status)]: the constructor itself raises [RuntimeError]
    when handed [PicoStatus.OK].  The formatted message (the member name of
    the status) is not modelled; the exception carries the status. *)
Definition new_PicoStatusError (status : Z) : PyError :=
  if status =? PicoStatus.OK
  then RuntimeError "PicoStatus.OK should not cause exception."%string
  else PicoStatusError status.

Definition msg_no_handle : string :=
  "Cannot operate without acquiring handle to hardware. Call PS6000A.open_unit first."%string.
Definition msg_open_failed : string :=
  "Cannot operate without valid handle: hardware failed to to open. Call PS6000A.get_unit_info for details."%string.
Definition msg_not_found : string :=
  "Cannot operate without valid handle: no hardware found."%string.

(** [PicoHandleError(handle)]. *)
Definition new_PicoHandleError (handle : option Z) : PyError :=
  match handle with
  | None => PicoHandleError handle msg_no_handle
  | Some h =>
      if h <? 0 then PicoHandleError handle msg_open_failed
      else if h =? 0 then PicoHandleError handle msg_not_found
      else RuntimeError "Valid handle should not cause exception."%string
  end.

(** ** buffers.py *)

Inductive BufferMaxMin : Type := MAX | MIN.

#[global] Instance BufferMaxMin_eq_dec : EqDecision BufferMaxMin.
Proof. solve_decision. Defined.

Module BufferClass.
Record t := {
  channel : Z;
  datatype : Z;
  segment : Z
}.

#[global] Instance eq_dec : EqDecision t.
Proof. solve_decision. Defined.

#[global] Instance countable : Countable t.
Proof.
  refine (inj_countable'
            (λ c, (channel c, datatype c, segment c))
            (λ p, {| channel := p.1.1; datatype := p.1.2; segment := p.2 |}) _).
  by intros [].
Defined.
End BufferClass.

(** A ctypes array: where it lives, [len(a)] and the size of one element
    ([sizeof(a)] is their product). *)
Record CArray := {
  addressof : Z;
  len : Z;
  itemsize : Z
}.

Definition sizeof (a : CArray) : Z := len a * itemsize a.

Module Buffer.
Record t := {
  buffer : CArray;
  channel : Z;
  datatype : Z;
  segment : Z;
  downsampling_mode : Z;
  max_min : BufferMaxMin
}.

(** The dataclass is frozen and [buffer] is declared [compare=False]:
    [__eq__] and [__hash__] look at the five remaining fields only. *)
Definition compare_fields (b : t) : Z * Z * Z * Z * BufferMaxMin :=
  (channel b, datatype b, segment b, downsampling_mode b, max_min b).

Definition eqb (a b : t) : bool :=
  bool_decide (compare_fields a = compare_fields b).

Definition buffer_class (self : t) : BufferClass.t :=
  {| BufferClass.channel := channel self;
     BufferClass.datatype := datatype self;
     BufferClass.segment := segment self |}.

Definition samples (self : t) : Z := len (buffer self).

(** [PicoStreamingDataInfo(channel, mode, type)]: the three values go into
    the first three fields, which are [c_uint32] and keep an integer
    modulo [2 ^ 32]; the remaining fields of the structure start zeroed. *)
Definition empty_streaming_info (self : t) : PicoStreamingDataInfo :=
  {| _channel := c_uint32 (channel self); _mode := c_uint32 (downsampling_mode self);
     _type := c_uint32 (datatype self);
     no_of_samples := 0; buffer_index := 0; start_index := 0; _overflow := 0 |}.
End Buffer.

(** ** Python [set] of buffers

    A [set[Buffer]] is kept as the list of its elements in iteration order,
    without two elements that are equal under [Buffer.__eq__].  Python fixes
    the iteration order by hashing; nothing below relies on where [add]
    places a new element, and results that depend on the order are stated
    for every order. *)

Definition set_contains (x : Buffer.t) (s : list Buffer.t) : bool :=
  existsb (Buffer.eqb x) s.

Definition set_add (x : Buffer.t) (s : list Buffer.t) : list Buffer.t :=
  if set_contains x s then s else s ++ [x].

(** [set.remove] raises [KeyError] when the element is absent. *)
Definition set_remove (x : Buffer.t) (s : list Buffer.t) : Outcome (list Buffer.t) :=
  if set_contains x s
  then Returns (filter (λ y, Buffer.eqb x y = false) s)
  else Raises KeyError.

(** ** [defaultdict(set)]

    [d[k]] on a missing key stores and returns a fresh empty set. *)
Definition dd_getitem (k : BufferClass.t) (d : gmap BufferClass.t (list Buffer.t))
  : list Buffer.t * gmap BufferClass.t (list Buffer.t) :=
  match d !! k with
  | Some s => (s, d)
  | None => ([], <[k := []]> d)
  end.

(** [d[k].m(...)] for a method [m] that mutates the set in place. *)
Definition dd_mutate (k : BufferClass.t) (m : list Buffer.t → list Buffer.t)
    (d : gmap BufferClass.t (list Buffer.t)) : gmap BufferClass.t (list Buffer.t) :=
  let '(s, d') := dd_getitem k d in <[k := m s]> d'.

(** [d.values()].  Python walks a dict in insertion order, the map in the
    order of its keys; the loops over the values below build sets, and a
    loop that raises does so whatever the order. *)
Definition dict_values (d : gmap BufferClass.t (list Buffer.t)) : list (list Buffer.t) :=
  (map_to_list d).*2.

(** A [for] loop whose body may raise. *)
Fixpoint for_each {A S : Type} (body : S → A → Outcome S) (xs : list A) (s : S) : Outcome S :=
  match xs with
  | [] => Returns s
  | x :: xs' =>
      match body s x with
      | Returns s' => for_each body xs' s'
      | Raises e => Raises e
      end
  end.

(** ** The session object and its environment *)

Record PS6000A := {
  raw_handle : option Z;
  last_status : Z;
  buffers : gmap BufferClass.t (list Buffer.t)
}.

(** Calls that cross into the vendor DLL, with the arguments as marshalled
    by [functions.py]. *)
Inductive DllCall : Type :=
| ps6000aOpenUnit (serial : option string) (resolution : Z)
| ps6000aOpenUnitAsync (serial : option string) (resolution : Z)
| ps6000aOpenUnitProgress
| ps6000aCloseUnit (handle : Z)
| ps6000aSetDataBuffers (handle channel : Z) (buffer_max_ptr buffer_min_ptr : option Z)
    (n_samples data_type waveform down_sample_ratio_mode action : Z)
| ps6000aGetStreamingLatestValues (handle : Z) (streaming_data_info : list PicoStreamingDataInfo).

(** What a DLL call hands back: its status word and whatever it wrote
    through its out-pointers. *)
Record DllReply := {
  reply_status : Z;
  reply_handle : Z;
  reply_flag : bool;
  reply_progress : Z;
  reply_streaming_info : list PicoStreamingDataInfo;
  reply_streaming_trigger : list PicoStreamingDataTriggerInfo
}.

(** The environment a method runs in: the session object, the driver (its
    reply to a call may depend on every call made before), the calls made
    so far, oldest first, and the warnings logged so far. *)
Record World := {
  session : PS6000A;
  driver : list DllCall → DllCall → DllReply;
  calls : list DllCall;
  warnings : list string
}.

Definition Py (A : Type) : Type := World → Outcome A * World.

#[global] Instance Py_ret : MRet Py := λ A a w, (Returns a, w).
#[global] Instance Py_bind : MBind Py := λ A B f m w,
  match m w with
  | (Returns a, w') => f a w'
  | (Raises e, w') => (Raises e, w')
  end.

Definition raise {A} (e : PyError) : Py A := λ w, (Raises e, w).

Definition lift {A} (o : Outcome A) : Py A := λ w, (o, w).

Definition with_session (w : World) (s : PS6000A) : World :=
  {| session := s; driver := driver w; calls := calls w; warnings := warnings w |}.

Definition get_raw_handle : Py (option Z) := λ w, (Returns (raw_handle (session w)), w).

Definition get_buffers : Py (gmap BufferClass.t (list Buffer.t)) :=
  λ w, (Returns (buffers (session w)), w).

Definition set_raw_handle (h : option Z) : Py unit := λ w,
  (Returns (),
   with_session w {| raw_handle := h; last_status := last_status (session w);
                     buffers := buffers (session w) |}).

Definition set_last_status (s : Z) : Py unit := λ w,
  (Returns (),
   with_session w {| raw_handle := raw_handle (session w); last_status := s;
                     buffers := buffers (session w) |}).

Definition set_buffers (d : gmap BufferClass.t (list Buffer.t)) : Py unit := λ w,
  (Returns (),
   with_session w {| raw_handle := raw_handle (session w);
                     last_status := last_status (session w); buffers := d |}).

(** [logger.warning(msg)] *)
Definition logger_warning (msg : string) : Py unit := λ w,
  (Returns (),
   {| session := session w; driver := driver w; calls := calls w;
      warnings := warnings w ++ [msg] |}).

(** Crossing into the DLL: the driver answers, the call is recorded. *)
Definition dll_call (c : DllCall) : Py DllReply := λ w,
  (Returns (driver w (calls w) c),
   {| session := session w; driver := driver w; calls := calls w ++ [c];
      warnings := warnings w |}).

(** ** functions.py *)

Module ll.
(** [serial.encode("ASCII")] raises [UnicodeEncodeError] when a character
    lies outside ASCII.  A [str] is kept as a string of characters below
    256, so the characters that cannot be encoded are those from 128 on. *)
Definition encode_ASCII (serial : string) : Outcome string :=
  if forallb (λ c, Nat.ltb (Ascii.nat_of_ascii c) 128) (String.list_ascii_of_string serial)
  then Returns serial
  else Raises UnicodeEncodeError.

(** The serial number as handed to the DLL: a null pointer, or the
    encoded characters. *)
Definition marshal_serial (serial : option string) : Outcome (option string) :=
  match serial with
  | Some s => ser_chars ← encode_ASCII s; Returns (Some ser_chars)
  | None => Returns None
  end.

Definition open_unit (serial : option string) (resolution : Z) : Py (Z * Z) :=
  ser_char_p ← lift (marshal_serial serial);
  r ← dll_call (ps6000aOpenUnit ser_char_p resolution);
  mret (reply_status r, reply_handle r).

Definition open_unit_async (serial : option string) (resolution : Z) : Py (Z * bool) :=
  ser_char_p ← lift (marshal_serial serial);
  r ← dll_call (ps6000aOpenUnitAsync ser_char_p resolution);
  mret (reply_status r, reply_flag r).

Definition open_unit_progress : Py (Z * Z * Z * bool) :=
  r ← dll_call ps6000aOpenUnitProgress;
  mret (reply_status r, reply_handle r, reply_progress r, reply_flag r).

Definition close_unit (handle : Z) : Py Z :=
  r ← dll_call (ps6000aCloseUnit handle);
  mret (reply_status r).

(** The pointer and length marshalling of [set_data_buffers], with its
    checks in source order. *)
Definition marshal_buffers (buffer_max buffer_min : option CArray) (data_type : Z)
  : Outcome (option Z * option Z * Z) :=
  match buffer_max with
  | None => Returns (None, None, 0)
  | Some bmax =>
      let n_samples := len bmax in
      sz ← PicoDataType.sizeof_ctype data_type;
      if bool_decide (sizeof bmax ≠ n_samples * sz)
      then Raises (TypeError "Buffer (max) size mismatch, is data type wrong?"%string)
      else
        match buffer_min with
        | None => Returns (Some (addressof bmax), None, n_samples)
        | Some bmin =>
            if bool_decide (len bmax ≠ len bmin)
            then Raises (TypeError "Buffer min vs. max size mismatch."%string)
            else
              sz' ← PicoDataType.sizeof_ctype data_type;
              if bool_decide (sizeof bmin ≠ n_samples * sz')
              then Raises (TypeError "Buffer (min) size mismatch, is data type wrong?"%string)
              else Returns (Some (addressof bmax), Some (addressof bmin), n_samples)
        end
  end.

Definition set_data_buffers (handle channel : Z) (buffer_max buffer_min : option CArray)
    (data_type waveform down_sample_ratio_mode action : Z) : Py Z :=
  if bool_decide (is_Some buffer_min ∧ buffer_max = None)
  then raise (TypeError "Cannot set min buffer without max buffer."%string)
  else
    '(buffer_max_ptr, buffer_min_ptr, n_samples) ←
      lift (marshal_buffers buffer_max buffer_min data_type);
    r ← dll_call (ps6000aSetDataBuffers handle channel buffer_max_ptr buffer_min_ptr
                    n_samples data_type waveform down_sample_ratio_mode action);
    mret (reply_status r).

Definition get_streaming_latest_values (handle : Z)
    (streaming_data_info : list PicoStreamingDataInfo)
  : Py (Z * list PicoStreamingDataInfo * list PicoStreamingDataTriggerInfo) :=
  r ← dll_call (ps6000aGetStreamingLatestValues handle streaming_data_info);
  mret (reply_status r, reply_streaming_info r, reply_streaming_trigger r).
End ll.

(** ** ps6000a.py: class [PS6000A] *)

(** [PS6000A.__init__] *)
Definition PS6000A_init : PS6000A :=
  {| raw_handle := None; last_status := PicoStatus.NOT_YET_RUN; buffers := ∅ |}.

(** The [handle] property. *)
Definition handle : Py Z :=
  rh ← get_raw_handle;
  match rh with
  | Some h => if PicoHandle.valid h then mret h else raise (new_PicoHandleError rh)
  | None => raise (new_PicoHandleError rh)
  end.

Definition _verify_status (status : Z) : Py unit :=
  set_last_status status;;
  if bool_decide (status ≠ PicoStatus.OK)
  then raise (new_PicoStatusError status)
  else mret ().

Definition close_unit : Py unit :=
  h ← handle;
  status ← ll.close_unit h;
  _verify_status status;;
  set_raw_handle None.

(** [self.raw_handle is not None and self.raw_handle.valid] *)
Definition holds_valid_handle : Py bool :=
  rh ← get_raw_handle;
  mret (match rh with Some h => PicoHandle.valid h | None => false end).

Definition open_unit (serial : option string) (resolution : Z) : Py bool :=
  already ← holds_valid_handle;
  (if already : bool
   then logger_warning "open_unit called while a unit is already open."%string;;
        close_unit
   else mret ());;
  '(status, h) ← ll.open_unit serial resolution;
  _verify_status status;;
  set_raw_handle (Some h);;
  mret (PicoHandle.valid h).

Definition open_unit_async (serial : option string) (resolution : Z) : Py bool :=
  already ← holds_valid_handle;
  (if already : bool
   then logger_warning "open_unit_async called while a unit is already open."%string
   else mret ());;
  '(status, status2) ← ll.open_unit_async serial resolution;
  _verify_status status;;
  mret status2.

Definition open_unit_progress : Py bool :=
  already ← holds_valid_handle;
  (if already : bool
   then logger_warning "open_unit_progress called while a unit is already open."%string;;
        close_unit
   else mret ());;
  '(status, h, progress, complete) ← ll.open_unit_progress;
  _verify_status status;;
  (if complete : bool then set_raw_handle (Some h) else mret ());;
  mret (complete && PicoHandle.valid h).

Definition set_data_buffers (buffer_max : Buffer.t) (buffer_min : option Buffer.t)
    (clear_others : bool) : Py unit :=
  buffer_min_raw ←
    match buffer_min with
    | Some bmin =>
        if bool_decide (Buffer.buffer_class bmin ≠ Buffer.buffer_class buffer_max)
        then raise (ValueError "Both min and max buffers must have same buffer class."%string)
        else if bool_decide (Buffer.downsampling_mode bmin ≠ Buffer.downsampling_mode buffer_max)
        then raise (ValueError "Both min and max buffers must have same downsampling mode."%string)
        else mret (Some (Buffer.buffer bmin))
    | None => mret None
    end;
  h ← handle;
  let action := PicoAction.ADD in
  let action := if clear_others then Z.lor action PicoAction.CLEAR_ALL else action in
  status ← ll.set_data_buffers h (Buffer.channel buffer_max)
              (Some (Buffer.buffer buffer_max)) buffer_min_raw
              (Buffer.datatype buffer_max) (Buffer.segment buffer_max)
              (Buffer.downsampling_mode buffer_max) action;
  _verify_status status;;
  let buffer_class := Buffer.buffer_class buffer_max in
  (if clear_others
   then d ← get_buffers; set_buffers (dd_mutate buffer_class (λ _, []) d)
   else mret ());;
  d ← get_buffers;
  set_buffers (dd_mutate buffer_class (set_add buffer_max) d);;
  match buffer_min with
  | Some bmin =>
      d ← get_buffers;
      set_buffers (dd_mutate buffer_class (set_add bmin) d)
  | None => mret ()
  end.

Definition clear_data_buffers (channel data_type segment : Z) : Py unit :=
  h ← handle;
  status ← ll.set_data_buffers h channel None None data_type segment
              PicoRatioMode.RAW PicoAction.CLEAR_ALL;
  _verify_status status;;
  let buffer_class :=
    {| BufferClass.channel := channel; BufferClass.datatype := data_type;
       BufferClass.segment := segment |} in
  d ← get_buffers;
  set_buffers (dd_mutate buffer_class (λ _, []) d).

Definition get_existing_data_buffers (channel data_type segment : Z) : Py (list Buffer.t) :=
  let buffer_class :=
    {| BufferClass.channel := channel; BufferClass.datatype := data_type;
       BufferClass.segment := segment |} in
  d ← get_buffers;
  let '(s, d') := dd_getitem buffer_class d in
  set_buffers d';;
  mret s.

(** [if f is not None and x != f: out.remove(buffer)] *)
Definition remove_unless (f : option Z) (x : Z) (buffer : Buffer.t) (out : list Buffer.t)
  : Outcome (list Buffer.t) :=
  match f with
  | Some v => if bool_decide (x ≠ v) then set_remove buffer out else Returns out
  | None => Returns out
  end.

(** The body of the inner loop of [get_all_existing_data_buffers]. *)
Definition filter_body (channel data_type segment : option Z)
    (out : list Buffer.t) (buffer : Buffer.t) : Outcome (list Buffer.t) :=
  let out := set_add buffer out in
  out ← remove_unless channel (Buffer.channel buffer) buffer out;
  out ← remove_unless data_type (Buffer.datatype buffer) buffer out;
  remove_unless segment (Buffer.segment buffer) buffer out.

Definition get_all_existing_data_buffers (channel data_type segment : option Z)
  : Py (list Buffer.t) :=
  d ← get_buffers;
  lift (for_each
          (λ out bclass, for_each (filter_body channel data_type segment) bclass out)
          (dict_values d) []).

(** *** Max/min pairing *)

(** [pairs] is a [defaultdict(lambda: [None, None])] keyed by
    (channel, datatype, segment, downsampling mode); as a Python dict it
    iterates in insertion order, so it is kept as an association list. *)
Definition PairKey : Type := Z * Z * Z * Z.
Definition PairSlots : Type := option Buffer.t * option Buffer.t.

(** [pairs[key][0] = buffer] *)
Fixpoint store_slot0 (key : PairKey) (buffer : Buffer.t) (pairs : list (PairKey * PairSlots))
  : list (PairKey * PairSlots) :=
  match pairs with
  | [] => [(key, (Some buffer, None))]
  | (k, slots) :: rest =>
      if bool_decide (k = key)
      then (k, (Some buffer, slots.2)) :: rest
      else (k, slots) :: store_slot0 key buffer rest
  end.

(** The body of the first loop.  Both branches of the source assign slot 0;
    its [else: raise TypeError] is out of reach of a two-member enum. *)
Definition pairing_body (pairs : list (PairKey * PairSlots)) (buffer : Buffer.t)
  : list (PairKey * PairSlots) :=
  let key := (Buffer.channel buffer, Buffer.datatype buffer, Buffer.segment buffer,
              Buffer.downsampling_mode buffer) in
  match Buffer.max_min buffer with
  | MAX => store_slot0 key buffer pairs
  | MIN => store_slot0 key buffer pairs
  end.

(** Equality of the tuples held in the returned set. *)
Definition tuple_eqb (p q : Buffer.t * option Buffer.t) : bool :=
  Buffer.eqb p.1 q.1 &&
  match p.2, q.2 with
  | Some a, Some b => Buffer.eqb a b
  | None, None => true
  | _, _ => false
  end.

(** [out.add(p)] on the set of tuples.  As for the sets of buffers, the
    list stands for the set: Python walks the set in hash order, and what
    is stated about the result or about a walk over it is stated up to
    order, or for every order. *)
Definition tuple_set_add (p : Buffer.t * option Buffer.t) (s : list (Buffer.t * option Buffer.t))
  : list (Buffer.t * option Buffer.t) :=
  if existsb (tuple_eqb p) s then s else s ++ [p].

(** The second loop, over [pairs.values()]. *)
Fixpoint collect_pairs (slots : list PairSlots) (out : list (Buffer.t * option Buffer.t))
  : Py (list (Buffer.t * option Buffer.t)) :=
  match slots with
  | [] => mret out
  | (buffer_max, buffer_min) :: rest =>
      match buffer_max with
      | None =>
          logger_warning "No max buffer matching min buffer"%string;;
          collect_pairs rest out
      | Some bmax => collect_pairs rest (tuple_set_add (bmax, buffer_min) out)
      end
  end.

(** The three parameters are accepted and never read: every class of the
    registry is walked. *)
Definition get_existing_data_buffer_pairs (channel data_type segment : Z)
  : Py (list (Buffer.t * option Buffer.t)) :=
  d ← get_buffers;
  let pairs := foldl (λ pairs bclass, foldl pairing_body pairs bclass) [] (dict_values d) in
  collect_pairs pairs.*2 [].

(** *** Streaming poll *)

Definition get_streaming_latest_values (streaming_data_info : option (list PicoStreamingDataInfo))
  : Py (bool * list PicoStreamingDataInfo * list PicoStreamingDataTriggerInfo) :=
  h ← handle;
  infos ←
    match streaming_data_info with
    | Some infos => mret infos
    | None =>
        bs ← get_all_existing_data_buffers None None (Some 0);
        mret (Buffer.empty_streaming_info <$> bs)
    end;
  '(status, streaming_info_array, streaming_trigger_array) ←
    ll.get_streaming_latest_values h infos;
  set_last_status status;;
  if bool_decide (status ≠ PicoStatus.OK ∧ status ≠ PicoStatus.WAITING_FOR_DATA_BUFFERS)
  then raise (new_PicoStatusError status)
  else
    let full := bool_decide (status = PicoStatus.WAITING_FOR_DATA_BUFFERS) in
    mret (full, streaming_info_array, streaming_trigger_array).

(** ** callbacks.py

    Python objects are told apart by identity.  The only attribute the
    wrapper reads or writes is the one named by [holder].  The heap records,
    for each object that has it in a dictionary of its own, the tuple
    stored there, and the next identity the allocator hands out.

    What [hasattr], [getattr] and [setattr] do depends on the kind of
    callable handed in:
    - a [Function] (a [def], a lambda, any object that keeps attributes
      in a dictionary of its own and whose type defines none by that
      name) is read and written in its own dictionary;
    - a [BoundMethod] has no dictionary: reading an attribute it lacks is
      passed on to its [__func__], and writing one raises
      [AttributeError];
    - a [Builtin] function has no dictionary either and nothing to pass
      the read on to;
    - an [Instance] of a user class with [__call__] is read in its own
      dictionary first and in its class after that, and written in its
      own dictionary. *)

Module callbacks.
Definition ObjId : Type := positive.



Record Heap := {
  holder : gmap ObjId (ObjId * ObjId);
  next_id : ObjId
}.

Definition empty_heap : Heap := {| holder := ∅; next_id := 1%positive |}.





(** Heaps in which the attribute was only ever written by the wrapper:
    what is stored was allocated, and no trampoline is stored twice. *)
Definition wf (h : Heap) : Prop :=
  (∀ c v, holder h !! c = Some v → (v.1 < next_id h)%positive ∧ (v.2 < next_id h)%positive) ∧
  (∀ c1 c2 v1 v2, holder h !! c1 = Some v1 → holder h !! c2 = Some v2 → v1.2 = v2.2 → c1 = c2).

End callbacks.

(** ** Vocabulary of the statements *)

(** A buffer held by the registry, under whatever class key. *)
Definition registered (d : gmap BufferClass.t (list Buffer.t)) (b : Buffer.t) : Prop :=
  ∃ k s, d !! k = Some s ∧ b ∈ s.

(** A filter that is given and that the attribute does not equal. *)
Definition differs (f : option Z) (x : Z) : bool :=
  match f with
  | Some v => bool_decide (x ≠ v)
  | None => false
  end.

Definition matches (channel data_type segment : option Z) (b : Buffer.t) : Prop :=
  differs channel (Buffer.channel b) = false ∧
  differs data_type (Buffer.datatype b) = false ∧
  differs segment (Buffer.segment b) = false.

(** How many of the given filters a buffer fails. *)
Definition mismatches (channel data_type segment : option Z) (b : Buffer.t) : nat :=
  (Nat.b2n (differs channel (Buffer.channel b)) +
   Nat.b2n (differs data_type (Buffer.datatype b)) +
   Nat.b2n (differs segment (Buffer.segment b)))%nat.

(** The errors raised by local checks on the arguments, as opposed to
    errors about the session or reported by the device. *)
Definition validation_error (e : PyError) : Prop :=
  match e with
  | ValueError _ | TypeError _ => True
  | _ => False
  end.

(** The two methods that write to the registry. *)
Inductive registry_mutator : Py unit → Prop :=
| mutator_set buffer_max buffer_min clear_others :
    registry_mutator (set_data_buffers buffer_max buffer_min clear_others)
| mutator_clear channel data_type segment :
    registry_mutator (clear_data_buffers channel data_type segment).

(** The world after one more call [c], with the status [s] of its reply
    recorded and the registry set to [d]. *)
Definition after_call (w : World) (c : DllCall) (s : Z)
    (d : gmap BufferClass.t (list Buffer.t)) : World :=
  {| session := {| raw_handle := raw_handle (session w); last_status := s; buffers := d |};
     driver := driver w; calls := calls w ++ [c]; warnings := warnings w |}.

(** The registry a successful [set_data_buffers] leaves behind. *)
Definition registry_after_set (buffer_max : Buffer.t) (buffer_min : option Buffer.t)
    (clear_others : bool) (d : gmap BufferClass.t (list Buffer.t))
  : gmap BufferClass.t (list Buffer.t) :=
  let k := Buffer.buffer_class buffer_max in
  let d1 := if clear_others then dd_mutate k (λ _, []) d else d in
  let d2 := dd_mutate k (set_add buffer_max) d1 in
  match buffer_min with
  | Some m => dd_mutate k (set_add m) d2
  | None => d2
  end.

(** ** Sample sessions *)

Definition int8_array (address n : Z) : CArray :=
  {| addressof := address; len := n; itemsize := 1 |}.

(** A buffer on channel A, segment 0, of [int8] samples. *)
Definition sample_buffer (address n mode : Z) (side : BufferMaxMin) : Buffer.t :=
  {| Buffer.buffer := int8_array address n;
     Buffer.channel := PicoChannel.CHANNEL_A;
     Buffer.datatype := PicoDataType.INT8_T;
     Buffer.segment := 0;
     Buffer.downsampling_mode := mode;
     Buffer.max_min := side |}.

Definition agg_max : Buffer.t := sample_buffer 4096 10 PicoRatioMode.AGGREGATE MAX.
Definition agg_min : Buffer.t := sample_buffer 8192 10 PicoRatioMode.AGGREGATE MIN.
Definition agg_min_short : Buffer.t := sample_buffer 8192 5 PicoRatioMode.AGGREGATE MIN.

Definition class_A : BufferClass.t :=
  {| BufferClass.channel := PicoChannel.CHANNEL_A;
     BufferClass.datatype := PicoDataType.INT8_T;
     BufferClass.segment := 0 |}.

(** A driver that answers every call with the same status, and hands out
    handle 1 when asked to open. *)
Definition driver_replying (s : Z) : list DllCall → DllCall → DllReply :=
  λ _ _, {| reply_status := s; reply_handle := 1; reply_flag := true; reply_progress := 100;
            reply_streaming_info := []; reply_streaming_trigger := [] |}.

Definition world_of (s : PS6000A) (drv : list DllCall → DllCall → DllReply) : World :=
  {| session := s; driver := drv; calls := []; warnings := [] |}.

(** A session that holds handle [h] and registry [d]. *)
Definition session_with (h : option Z) (d : gmap BufferClass.t (list Buffer.t)) : PS6000A :=
  {| raw_handle := h; last_status := PicoStatus.OK; buffers := d |}.

(** A session holding handle 1 with nothing registered, and one with the
    aggregate pair registered, both on a driver that reports success. *)
Definition world_open : World :=
  world_of (session_with (Some 1) ∅) (driver_replying PicoStatus.OK).

Definition world_with_pair : World :=
  world_of (session_with (Some 1) {[class_A := [agg_max; agg_min]]})
           (driver_replying PicoStatus.OK).

(** A session that was never opened. *)
Definition world_new : World := world_of PS6000A_init (driver_replying PicoStatus.OK).

(** The session with the aggregate pair registered, on a driver that
    answers every call with [INVALID_HANDLE]. *)
Definition world_refusing : World :=
  world_of (session_with (Some 1) {[class_A := [agg_max; agg_min]]})
           (driver_replying PicoStatus.INVALID_HANDLE).

(** The same pair, with the set of the class walked MIN first. *)
Definition world_with_pair_reversed : World :=
  world_of (session_with (Some 1) {[class_A := [agg_min; agg_max]]})
           (driver_replying PicoStatus.OK).

(** The session with the aggregate pair registered, on a driver that
    answers every call with [WAITING_FOR_DATA_BUFFERS]. *)
Definition world_full : World :=
  world_of (session_with (Some 1) {[class_A := [agg_max; agg_min]]})
           (driver_replying PicoStatus.WAITING_FOR_DATA_BUFFERS).

(** Sessions whose last open failed, and found no device. *)
Definition world_open_failed : World :=
  world_of (session_with (Some (-1)) ∅) (driver_replying PicoStatus.OK).

Definition world_not_found : World :=
  world_of (session_with (Some 0) ∅) (driver_replying PicoStatus.OK).

(** * Further code *)

(** ** constants.py: helpers of the enumerations *)

Module PicoChannelFlags.
Definition CHANNEL_A : Z := 0x00000001.
Definition PORT0 : Z := 0x00010000.
End PicoChannelFlags.

Definition PicoChannel_CHANNEL_H : Z := 0x07.
Definition PicoChannel_PORT0 : Z := 0x80.
Definition PicoChannel_PORT3 : Z := 0x83.

(** [PicoChannel.flag] *)
Definition PicoChannel_flag (self : Z) : Z :=
  if (PicoChannel.CHANNEL_A <=? self) && (self <=? PicoChannel_CHANNEL_H)
  then Z.shiftl PicoChannelFlags.CHANNEL_A (self - PicoChannel.CHANNEL_A)
  else if (PicoChannel_PORT0 <=? self) && (self <=? PicoChannel_PORT3)
  then Z.shiftl PicoChannelFlags.PORT0 (self - PicoChannel_PORT0)
  else 0.

(** [PicoDataType.min] and [PicoDataType.max]: lookups in [_type_min] and
    [_type_max], raising [ValueError] for a value outside the table.  Here
    and below a message is kept to its fixed part, without the value the
    source formats into its end. *)
Definition PicoDataType_min (self : Z) : Outcome Z :=
  if self =? PicoDataType.INT8_T then Returns (-0x80)
  else if self =? PicoDataType.INT16_T then Returns (-0x8000)
  else if self =? PicoDataType.INT32_T then Returns (-0x80000000)
  else if self =? PicoDataType.UINT32_T then Returns 0x0
  else if self =? PicoDataType.INT64_T then Returns (-0x8000000000000000)
  else Raises (ValueError "No information available for PicoDataType"%string).

Definition PicoDataType_max (self : Z) : Outcome Z :=
  if self =? PicoDataType.INT8_T then Returns 0x7F
  else if self =? PicoDataType.INT16_T then Returns 0x7FFF
  else if self =? PicoDataType.INT32_T then Returns 0x7FFFFFFF
  else if self =? PicoDataType.UINT32_T then Returns 0xFFFFFFFF
  else if self =? PicoDataType.INT64_T then Returns 0x7FFFFFFFFFFFFFFF
  else Raises (ValueError "No information available for PicoDataType"%string).

Module PicoTriggerState.
Definition DONT_CARE : Z := 0.
Definition TRUE : Z := 1.
Definition FALSE : Z := 2.

Definition as_bool (self : Z) : option bool :=
  if self =? TRUE then Some true
  else if self =? FALSE then Some false
  else None.

Definition from_bool (value : option bool) : Z :=
  match value with
  | None => DONT_CARE
  | Some true => TRUE
  | Some false => FALSE
  end.
End PicoTriggerState.

Module PicoDeviceResolution.
Definition DR_8BIT : Z := 0.
Definition DR_12BIT : Z := 1.
Definition DR_14BIT : Z := 2.
Definition DR_15BIT : Z := 3.
Definition DR_16BIT : Z := 4.
Definition DR_10BIT : Z := 10.

(** The two lookup dicts, in the order they are written. *)
Definition _bits_lookup : list (Z * Z) :=
  [(DR_8BIT, 8); (DR_12BIT, 12); (DR_14BIT, 14); (DR_15BIT, 15); (DR_16BIT, 16);
   (DR_10BIT, 10)].

Definition _type_lookup : list (Z * Z) :=
  [(DR_8BIT, PicoDataType.INT8_T); (DR_12BIT, PicoDataType.INT16_T);
   (DR_14BIT, PicoDataType.INT16_T); (DR_15BIT, PicoDataType.INT16_T);
   (DR_16BIT, PicoDataType.INT16_T); (DR_10BIT, PicoDataType.INT16_T)].

(** [d[key]] for [key in d], on a dict kept as its list of items. *)
Fixpoint dict_get (d : list (Z * Z)) (key : Z) : option Z :=
  match d with
  | [] => None
  | (k, v) :: rest => if k =? key then Some v else dict_get rest key
  end.

Definition bits (self : Z) : Outcome Z :=
  match dict_get _bits_lookup self with
  | Some v => Returns v
  | None => Raises (ValueError "No known bits for PicoDeviceResolution"%string)
  end.

(** The loop of [from_bits] over [bits_lookup.items()]. *)
Fixpoint from_bits_loop (items : list (Z * Z)) (bits : Z) : Outcome Z :=
  match items with
  | [] => Raises (ValueError "No matching PicoDeviceResolution"%string)
  | (member, value) :: rest =>
      if value =? bits then Returns member else from_bits_loop rest bits
  end.

Definition from_bits (bits : Z) : Outcome Z := from_bits_loop _bits_lookup bits.

Definition min_type (self : Z) : Outcome Z :=
  match dict_get _type_lookup self with
  | Some v => Returns v
  | None => Raises (ValueError "No PicoDataType known for PicoDeviceResolution"%string)
  end.
End PicoDeviceResolution.


(** ** ps6000a.py, continued *)

(** The [total_existing_data_buffers] property. *)
Definition total_existing_data_buffers : Py Z :=
  d ← get_buffers;
  mret (foldl (λ count bufset, count + Z.of_nat (length bufset)) 0 (dict_values d)).

(** The loop of [reload_data_buffers] over the pairs, with [out] the set
    of buffers reloaded so far.  [pairs] is the set of pairs in the order
    the loop walks it, which Python leaves to the hashes. *)
Fixpoint reload_loop (h : Z) (pairs : list (Buffer.t * option Buffer.t))
    (out : list Buffer.t) : Py (list Buffer.t) :=
  match pairs with
  | [] => mret out
  | (buffer_max, buffer_min) :: rest =>
      status ← ll.set_data_buffers h (Buffer.channel buffer_max)
                  (Some (Buffer.buffer buffer_max)) (Buffer.buffer <$> buffer_min)
                  (Buffer.datatype buffer_max) (Buffer.segment buffer_max)
                  (Buffer.downsampling_mode buffer_max) PicoAction.ADD;
      _verify_status status;;
      let out := set_add buffer_max out in
      let out := match buffer_min with Some m => set_add m out | None => out end in
      reload_loop h rest out
  end.

Definition reload_data_buffers (channel data_type segment : Z) : Py (list Buffer.t) :=
  h ← handle;
  pairs ← get_existing_data_buffer_pairs channel data_type segment;
  reload_loop h pairs [].

(** [PY_SSIZE_T_MAX], the largest index, of a 64-bit build. *)
Definition PY_SSIZE_T_MAX : Z := 2 ^ 63 - 1.

(** [(data_type.ctype * n_samples)()].  The element type is looked up
    first.  The product then needs a length that fits an index
    ([OverflowError] otherwise) and is not negative ([ValueError]), and an
    array whose byte size fits an index ([OverflowError]).  Calling the
    array type asks the allocator for the memory: [address] is where it
    places the array, [None] when it has none to give ([MemoryError]). *)
Definition new_array (data_type n_samples : Z) (address : option Z) : Outcome CArray :=
  size ← PicoDataType.sizeof_ctype data_type;
  if (n_samples <? - PY_SSIZE_T_MAX - 1) || (PY_SSIZE_T_MAX <? n_samples)
  then Raises OverflowError
  else if n_samples <? 0
  then Raises (ValueError "Array length must be >= 0"%string)
  else if PY_SSIZE_T_MAX / size <? n_samples
  then Raises OverflowError
  else
    match address with
    | Some a => Returns {| addressof := a; len := n_samples; itemsize := size |}
    | None => Raises MemoryError
    end.

Definition get_data_buffer (address : option Z) (channel n_samples data_type segment
    down_sample_ratio_mode : Z) (clear_others : bool) : Py Buffer.t :=
  array ← lift (new_array data_type n_samples address);
  let buffer :=
    {| Buffer.buffer := array; Buffer.channel := channel; Buffer.datatype := data_type;
       Buffer.segment := segment; Buffer.downsampling_mode := down_sample_ratio_mode;
       Buffer.max_min := MAX |} in
  set_data_buffers buffer None clear_others;;
  mret buffer.

Definition get_data_buffers (address_max address_min : option Z) (channel n_samples
    data_type segment down_sample_ratio_mode : Z) (clear_others : bool)
  : Py (Buffer.t * Buffer.t) :=
  array_max ← lift (new_array data_type n_samples address_max);
  let buffer_max :=
    {| Buffer.buffer := array_max; Buffer.channel := channel; Buffer.datatype := data_type;
       Buffer.segment := segment; Buffer.downsampling_mode := down_sample_ratio_mode;
       Buffer.max_min := MAX |} in
  array_min ← lift (new_array data_type n_samples address_min);
  let buffer_min :=
    {| Buffer.buffer := array_min; Buffer.channel := channel; Buffer.datatype := data_type;
       Buffer.segment := segment; Buffer.downsampling_mode := down_sample_ratio_mode;
       Buffer.max_min := MIN |} in
  set_data_buffers buffer_max (Some buffer_min) clear_others;;
  mret (buffer_max, buffer_min).

(** ** Vocabulary of the further statements *)

(** The buffers of a registry, class by class. *)
Definition all_buffers (d : gmap BufferClass.t (list Buffer.t)) : list Buffer.t :=
  mjoin (dict_values d).

(** The key under which [get_existing_data_buffer_pairs] groups a buffer. *)
Definition pair_key (b : Buffer.t) : PairKey :=
  (Buffer.channel b, Buffer.datatype b, Buffer.segment b, Buffer.downsampling_mode b).


(** A set of buffers without two that are equal under [Buffer.__eq__]. *)
Definition set_wf (s : list Buffer.t) : Prop := NoDup (Buffer.compare_fields <$> s).

(** A registry whose sets are sets and hold buffers of the class they are
    filed under. *)
Definition registry_wf (d : gmap BufferClass.t (list Buffer.t)) : Prop :=
  ∀ k s, d !! k = Some s → set_wf s ∧ ∀ b, b ∈ s → Buffer.buffer_class b = k.

(** The world after one more call [c], nothing else changed. *)
Definition called (w : World) (c : DllCall) : World :=
  {| session := session w; driver := driver w; calls := calls w ++ [c];
     warnings := warnings w |}.


(** A session holding handle 1 with two MAX buffers on channel A, one per
    downsampling mode. *)
Definition raw_max : Buffer.t := sample_buffer 16384 10 PicoRatioMode.RAW MAX.

Definition world_two_modes : World :=
  world_of (session_with (Some 1) {[class_A := [agg_max; raw_max]]})
           (driver_replying PicoStatus.OK).


(** A call that submits the array of buffer [b] through handle [h] with
    the plain add action. *)
Definition adds_buffer (h : Z) (b : Buffer.t) (c : DllCall) : Prop :=
  ∃ pmin n, c = ps6000aSetDataBuffers h (Buffer.channel b)
                  (Some (addressof (Buffer.buffer b))) pmin n (Buffer.datatype b)
                  (Buffer.segment b) (Buffer.downsampling_mode b) PicoAction.ADD.

(** Two worlds that differ at most in the calls recorded and in the last
    status. *)
Definition same_but_calls (w w' : World) : Prop :=
  buffers (session w') = buffers (session w) ∧
  raw_handle (session w') = raw_handle (session w) ∧
  driver w' = driver w ∧ warnings w' = warnings w.




(** The close that [open_unit] and [open_unit_progress] send first when
    the session holds a valid handle, and the handle the session is left
    with once that guard has run. *)
Definition closes_first (w : World) : list DllCall :=
  match raw_handle (session w) with
  | Some h => if PicoHandle.valid h then [ps6000aCloseUnit h] else []
  | None => []
  end.

Definition kept_handle (w : World) : option Z :=
  match raw_handle (session w) with
  | Some h => if PicoHandle.valid h then None else Some h
  | None => None
  end.

(** A driver that reports success and hands back handle [h], with the
    completion flag [complete]; a session holding handle 1 on a driver
    that hands back handle 7, and a new session on a driver whose open
    has not completed. *)
Definition driver_opening (h : Z) (complete : bool) : list DllCall → DllCall → DllReply :=
  λ _ _, {| reply_status := PicoStatus.OK; reply_handle := h; reply_flag := complete;
            reply_progress := if complete then 100 else 0;
            reply_streaming_info := []; reply_streaming_trigger := [] |}.

Definition world_reopening : World :=
  world_of (session_with (Some 1) {[class_A := [agg_max; agg_min]]}) (driver_opening 7 true).

Definition world_unfinished : World :=
  world_of (session_with (Some 1) ∅) (driver_opening 7 false).

(** * Properties *)

(** ** Running the session methods *)

Ltac run_py :=
  unfold handle, _verify_status, holds_valid_handle, get_raw_handle, get_buffers,
    set_raw_handle, set_last_status, set_buffers, logger_warning, dll_call, raise, lift,
    with_session, mbind, mret, Py_bind, Py_ret; simpl.

Lemma valid_pos (h : Z) : PicoHandle.valid h = true ↔ 0 < h.
Proof. unfold PicoHandle.valid. apply Z.ltb_lt. Qed.

Lemma handle_valid (w : World) (h : Z) :
  raw_handle (session w) = Some h → 0 < h → handle w = (Returns h, w).
Proof.
  intros Hraw Hpos. run_py. rewrite Hraw.
  apply valid_pos in Hpos. by rewrite Hpos.
Qed.

Lemma handle_invalid (w : World) :
  match raw_handle (session w) with Some h => h ≤ 0 | None => True end →
  handle w = (Raises (new_PicoHandleError (raw_handle (session w))), w).
Proof.
  intros Hraw. run_py. destruct (raw_handle (session w)) as [h|]; [|done].
  destruct (PicoHandle.valid h) eqn:Hv; [|done].
  apply valid_pos in Hv. lia.
Qed.

Lemma handle_inv (w w' : World) (h : Z) :
  handle w = (Returns h, w') → raw_handle (session w) = Some h ∧ 0 < h ∧ w' = w.
Proof.
  run_py. destruct (raw_handle (session w)) as [h0|]; [|done].
  destruct (PicoHandle.valid h0) eqn:Hv; [|done].
  intros [= -> ->]. by apply valid_pos in Hv.
Qed.

(** C8.  The handle accessor returns the stored handle exactly when one is
    stored and it is strictly positive; otherwise it raises a
    [PicoHandleError] carrying the stored value, whose message tells apart
    a handle that was never acquired, a negative handle (the open failed)
    and a zero handle (no device found). *)
Theorem handle_accessor (w : World) :
  (∀ h, raw_handle (session w) = Some h → 0 < h → handle w = (Returns h, w)) ∧
  (∀ h w', handle w = (Returns h, w') → raw_handle (session w) = Some h ∧ 0 < h ∧ w' = w) ∧
  (raw_handle (session w) = None →
     handle w = (Raises (PicoHandleError None msg_no_handle), w)) ∧
  (∀ h, raw_handle (session w) = Some h → h < 0 →
     handle w = (Raises (PicoHandleError (Some h) msg_open_failed), w)) ∧
  (raw_handle (session w) = Some 0 →
     handle w = (Raises (PicoHandleError (Some 0) msg_not_found), w)) ∧
  msg_no_handle ≠ msg_open_failed ∧ msg_no_handle ≠ msg_not_found ∧
  msg_open_failed ≠ msg_not_found.
Proof.
  split_and!; try done.
  - exact (handle_valid w).
  - intros h w'. apply handle_inv.
  - intros Hraw. rewrite handle_invalid; by rewrite Hraw.
  - intros h Hraw Hneg. rewrite handle_invalid; rewrite Hraw; [|lia].
    simpl. apply Z.ltb_lt in Hneg. by rewrite Hneg.
  - intros Hraw. rewrite handle_invalid; by rewrite Hraw.
Qed.


(** The accessor on four sessions: one holding handle 1, one never opened,
    one whose open failed, one that found no device. *)
Lemma handle_accessor_witness :
  handle world_open = (Returns 1, world_open) ∧
  handle world_new = (Raises (PicoHandleError None msg_no_handle), world_new) ∧
  handle world_open_failed =
    (Raises (PicoHandleError (Some (-1)) msg_open_failed), world_open_failed) ∧
  handle world_not_found =
    (Raises (PicoHandleError (Some 0) msg_not_found), world_not_found).
Proof.
  split_and!.
  - apply (proj1 (handle_accessor world_open)); [reflexivity | lia].
  - apply (proj1 (proj2 (proj2 (handle_accessor world_new)))). reflexivity.
  - apply (proj1 (proj2 (proj2 (proj2 (handle_accessor world_open_failed)))));
      [reflexivity | lia].
  - apply (proj1 (proj2 (proj2 (proj2 (proj2 (handle_accessor world_not_found)))))).
    reflexivity.
Defined.

(** ** Sets of buffers *)

Lemma Buffer_eqb_refl (b : Buffer.t) : Buffer.eqb b b = true.
Proof. unfold Buffer.eqb. by rewrite bool_decide_eq_true. Qed.

Lemma Buffer_eqb_fields (a b : Buffer.t) :
  Buffer.eqb a b = true ↔ Buffer.compare_fields a = Buffer.compare_fields b.
Proof. unfold Buffer.eqb. apply bool_decide_eq_true. Qed.

Lemma set_contains_spec (x : Buffer.t) (s : list Buffer.t) :
  set_contains x s = true ↔ ∃ y, y ∈ s ∧ Buffer.eqb x y = true.
Proof.
  unfold set_contains. rewrite existsb_exists.
  split; intros (y & Hy & Heq); exists y; by rewrite ?list_elem_of_In in *.
Qed.

Lemma set_contains_add (x : Buffer.t) (s : list Buffer.t) :
  set_contains x (set_add x s) = true.
Proof.
  unfold set_add. destruct (set_contains x s) eqn:Hc; [done|].
  apply set_contains_spec. exists x. split; [|apply Buffer_eqb_refl].
  apply elem_of_app. right. by apply list_elem_of_singleton.
Qed.

Lemma set_contains_removed (x : Buffer.t) (s : list Buffer.t) :
  set_contains x (filter (λ y, Buffer.eqb x y = false) s) = false.
Proof.
  destruct (set_contains _ _) eqn:Hc; [|done].
  apply set_contains_spec in Hc as (y & Hy & Heq).
  apply list_elem_of_filter in Hy as [Hne _]. congruence.
Qed.

Lemma elem_of_set_add (x y : Buffer.t) (s : list Buffer.t) :
  y ∈ set_add x s ↔ y ∈ s ∨ (y = x ∧ set_contains x s = false).
Proof.
  unfold set_add. destruct (set_contains x s) eqn:Hc.
  - split; [tauto | intros [?|[_ ?]]; [done | discriminate]].
  - rewrite elem_of_app, list_elem_of_singleton. tauto.
Qed.

(** ** The filtered query, one buffer at a time *)

Lemma filter_body_keep channel data_type segment out b :
  mismatches channel data_type segment b = 0%nat →
  filter_body channel data_type segment out b = Returns (set_add b out).
Proof.
  unfold mismatches, filter_body, remove_unless, differs.
  destruct channel, data_type, segment; repeat case_bool_decide; simpl; try done.
Qed.

Lemma filter_body_drop channel data_type segment out b :
  mismatches channel data_type segment b = 1%nat →
  filter_body channel data_type segment out b =
    Returns (filter (λ y, Buffer.eqb b y = false) (set_add b out)).
Proof.
  unfold mismatches, filter_body, remove_unless, differs.
  destruct channel, data_type, segment; repeat case_bool_decide; simpl; try done;
    unfold set_remove; by rewrite set_contains_add.
Qed.

Lemma filter_body_raise channel data_type segment out b :
  (2 ≤ mismatches channel data_type segment b)%nat →
  filter_body channel data_type segment out b = Raises KeyError.
Proof.
  unfold mismatches, filter_body, remove_unless, differs.
  destruct channel, data_type, segment; repeat case_bool_decide; simpl; try lia;
    unfold set_remove; rewrite set_contains_add; simpl;
    by rewrite ?set_contains_removed.
Qed.

Lemma matches_eqb channel data_type segment (a b : Buffer.t) :
  Buffer.eqb a b = true →
  matches channel data_type segment a → matches channel data_type segment b.
Proof.
  intros Heq. apply Buffer_eqb_fields in Heq. unfold Buffer.compare_fields in Heq.
  injection Heq as Hc Hd Hs _ _. unfold matches. by rewrite Hc, Hd, Hs.
Qed.

Lemma matches_mismatches channel data_type segment (b : Buffer.t) :
  matches channel data_type segment b ↔ mismatches channel data_type segment b = 0%nat.
Proof.
  unfold matches, mismatches.
  destruct (differs channel _), (differs data_type _), (differs segment _);
    simpl; split; (lia || intuition congruence).
Qed.

(** What one round of the inner loop does to the set being built, for a
    buffer that fails at most one of the given filters. *)
Lemma filter_body_sound channel data_type segment out b :
  (mismatches channel data_type segment b ≤ 1)%nat →
  ∃ out', filter_body channel data_type segment out b = Returns out' ∧
    (∀ x, x ∈ out' → x ∈ out ∨ (x = b ∧ matches channel data_type segment x)) ∧
    (∀ x, x ∈ out → matches channel data_type segment x → x ∈ out') ∧
    (matches channel data_type segment b → ∃ x, x ∈ out' ∧ Buffer.eqb b x = true).
Proof.
  intros Hle.
  destruct (decide (mismatches channel data_type segment b = 0%nat)) as [H0|Hn0].
  - exists (set_add b out). split; [by apply filter_body_keep|].
    apply matches_mismatches in H0. split_and!.
    + intros x Hx. apply elem_of_set_add in Hx as [Hx|[-> _]]; [by left | by right].
    + intros x Hx _. apply elem_of_set_add. by left.
    + intros _. apply set_contains_spec, set_contains_add.
  - exists (filter (λ y, Buffer.eqb b y = false) (set_add b out)).
    split; [apply filter_body_drop; lia|].
    assert (Hnm : ¬ matches channel data_type segment b)
      by (rewrite matches_mismatches; done).
    split_and!.
    + intros x Hx. apply list_elem_of_filter in Hx as [Hne Hx].
      apply elem_of_set_add in Hx as [Hx|[-> _]]; [by left|].
      by rewrite Buffer_eqb_refl in Hne.
    + intros x Hx Hm. apply list_elem_of_filter. split; [|apply elem_of_set_add; by left].
      destruct (Buffer.eqb b x) eqn:Heq; [|done].
      destruct Hnm. apply (matches_eqb _ _ _ x b); [|done].
      apply Buffer_eqb_fields. symmetry. by apply Buffer_eqb_fields.
    + done.
Qed.

Lemma for_each_filter_inner channel data_type segment (l : list Buffer.t) out :
  (∀ b, b ∈ l → (mismatches channel data_type segment b ≤ 1)%nat) →
  ∃ out', for_each (filter_body channel data_type segment) l out = Returns out' ∧
    (∀ x, x ∈ out' → x ∈ out ∨ (x ∈ l ∧ matches channel data_type segment x)) ∧
    (∀ x, x ∈ out → matches channel data_type segment x → x ∈ out') ∧
    (∀ b, b ∈ l → matches channel data_type segment b →
       ∃ x, x ∈ out' ∧ Buffer.eqb b x = true).
Proof.
  revert out. induction l as [|b l IH]; intros out Hle.
  - exists out. simpl. split_and!; [done | by left | done |].
    intros b Hb. by apply elem_of_nil in Hb.
  - destruct (filter_body_sound channel data_type segment out b) as (o1 & E1 & S1 & K1 & C1).
    { apply Hle. by left. }
    destruct (IH o1) as (o2 & E2 & S2 & K2 & C2).
    { intros b' Hb'. apply Hle. by right. }
    exists o2. simpl. rewrite E1. split_and!; [done| | |].
    + intros x Hx. destruct (S2 x Hx) as [Hx1|[Hxl Hm]].
      * destruct (S1 x Hx1) as [?|[-> Hm]]; [by left|]. right. split; [by left | done].
      * right. split; [by right | done].
    + intros x Hx Hm. auto.
    + intros b' Hb' Hm. apply elem_of_cons in Hb' as [->|Hb']; [|by apply C2].
      destruct (C1 Hm) as (x & Hx & Heq). exists x. split; [|done].
      apply K2; [done|]. by apply (matches_eqb _ _ _ b x).
Qed.

Lemma for_each_filter_outer channel data_type segment (L : list (list Buffer.t)) out :
  (∀ l b, l ∈ L → b ∈ l → (mismatches channel data_type segment b ≤ 1)%nat) →
  ∃ out',
    for_each (λ out bclass, for_each (filter_body channel data_type segment) bclass out) L out
      = Returns out' ∧
    (∀ x, x ∈ out' →
       x ∈ out ∨ ((∃ l, l ∈ L ∧ x ∈ l) ∧ matches channel data_type segment x)) ∧
    (∀ x, x ∈ out → matches channel data_type segment x → x ∈ out') ∧
    (∀ l b, l ∈ L → b ∈ l → matches channel data_type segment b →
       ∃ x, x ∈ out' ∧ Buffer.eqb b x = true).
Proof.
  revert out. induction L as [|l L IH]; intros out Hle.
  - exists out. simpl. split_and!; [done | by left | done |].
    intros l b Hl. by apply elem_of_nil in Hl.
  - destruct (for_each_filter_inner channel data_type segment l out)
      as (o1 & E1 & S1 & K1 & C1).
    { intros b Hb. apply (Hle l); [by left | done]. }
    destruct (IH o1) as (o2 & E2 & S2 & K2 & C2).
    { intros l' b Hl' Hb. apply (Hle l'); [by right | done]. }
    exists o2. simpl. rewrite E1. split_and!; [done| | |].
    + intros x Hx. destruct (S2 x Hx) as [Hx1|[(l' & Hl' & Hxl) Hm]].
      * destruct (S1 x Hx1) as [?|[Hxl Hm]]; [by left|].
        right. split; [|done]. exists l. split; [by left | done].
      * right. split; [|done]. exists l'. split; [by right | done].
    + intros x Hx Hm. auto.
    + intros l' b Hl' Hb Hm. apply elem_of_cons in Hl' as [->|Hl']; [|by apply (C2 l')].
      destruct (C1 b Hb Hm) as (x & Hx & Heq). exists x. split; [|done].
      apply K2; [done|]. by apply (matches_eqb _ _ _ b x).
Qed.

Lemma elem_of_dict_values (d : gmap BufferClass.t (list Buffer.t)) (l : list Buffer.t) :
  l ∈ dict_values d ↔ ∃ k, d !! k = Some l.
Proof.
  unfold dict_values. rewrite list_elem_of_fmap. split.
  - intros ([k s] & -> & Hks). exists k. by apply elem_of_map_to_list.
  - intros (k & Hk). exists (k, l). split; [done|]. by apply elem_of_map_to_list.
Qed.

(** The filtered query on a registry none of whose buffers fails two of the
    given filters: it returns, leaves the world as it was, and the set it
    returns holds registered matching buffers only and, up to
    [Buffer.__eq__], all of them. *)
Lemma get_all_existing_data_buffers_sound (w : World) (channel data_type segment : option Z) :
  (∀ b, registered (buffers (session w)) b →
        (mismatches channel data_type segment b ≤ 1)%nat) →
  ∃ out, get_all_existing_data_buffers channel data_type segment w = (Returns out, w) ∧
    (∀ x, x ∈ out →
       registered (buffers (session w)) x ∧ matches channel data_type segment x) ∧
    (∀ b, registered (buffers (session w)) b → matches channel data_type segment b →
       ∃ x, x ∈ out ∧ Buffer.eqb b x = true).
Proof.
  intros Hle.
  destruct (for_each_filter_outer channel data_type segment
              (dict_values (buffers (session w))) []) as (out & E & S & K & C).
  { intros l b Hl Hb. apply Hle. apply elem_of_dict_values in Hl as [k Hk].
    by exists k, l. }
  exists out. split_and!.
  - unfold get_all_existing_data_buffers. run_py. by rewrite E.
  - intros x Hx. destruct (S x Hx) as [Hnil|[(l & Hl & Hxl) Hm]].
    + by apply elem_of_nil in Hnil.
    + split; [|done]. apply elem_of_dict_values in Hl as [k Hk]. by exists k, l.
  - intros b (k & l & Hk & Hb) Hm. apply (C l); [|done..].
    apply elem_of_dict_values. by exists k.
Qed.

(** ** Status translation *)

Lemma app_singleton_neq {A} (l : list A) (x : A) : l ≠ l ++ [x].
Proof.
  intros H. apply (f_equal length) in H. rewrite length_app in H. simpl in H. lia.
Qed.

Lemma handle_cases (w : World) :
  (∃ h, raw_handle (session w) = Some h ∧ 0 < h ∧ handle w = (Returns h, w)) ∨
  (∃ e, handle w = (Raises e, w)).
Proof.
  destruct (raw_handle (session w)) as [h|] eqn:Hraw.
  - destruct (decide (0 < h)) as [Hpos|Hnpos].
    + left. exists h. split_and!; [done..|]. by apply handle_valid.
    + right. eexists. apply handle_invalid. rewrite Hraw. lia.
  - right. eexists. apply handle_invalid. by rewrite Hraw.
Qed.

Lemma new_PicoStatusError_carries (status : Z) :
  status ≠ PicoStatus.OK → new_PicoStatusError status = PicoStatusError status.
Proof.
  intros Hne. unfold new_PicoStatusError.
  destruct (status =? PicoStatus.OK) eqn:E; [|done]. apply Z.eqb_eq in E. done.
Qed.

Lemma verify_status_ok (w : World) :
  _verify_status PicoStatus.OK w =
    (Returns (),
     with_session w {| raw_handle := raw_handle (session w); last_status := PicoStatus.OK;
                       buffers := buffers (session w) |}).
Proof. done. Qed.

Lemma verify_status_raises (w : World) (status : Z) :
  status ≠ PicoStatus.OK →
  _verify_status status w =
    (Raises (PicoStatusError status),
     with_session w {| raw_handle := raw_handle (session w); last_status := status;
                       buffers := buffers (session w) |}).
Proof.
  intros Hne. run_py. rewrite bool_decide_eq_true_2 by done.
  by rewrite new_PicoStatusError_carries.
Qed.

(** The streaming poll of a session that holds a valid handle: one call
    reaches the device and its status decides the outcome. *)
Lemma get_streaming_latest_values_run (w : World) (h : Z) sdi :
  raw_handle (session w) = Some h → 0 < h →
  ∃ infos,
    let c := ps6000aGetStreamingLatestValues h infos in
    let r := driver w (calls w) c in
    get_streaming_latest_values sdi w =
      (if bool_decide (reply_status r ≠ PicoStatus.OK ∧
                       reply_status r ≠ PicoStatus.WAITING_FOR_DATA_BUFFERS)
       then Raises (new_PicoStatusError (reply_status r))
       else Returns (bool_decide (reply_status r = PicoStatus.WAITING_FOR_DATA_BUFFERS),
                     reply_streaming_info r, reply_streaming_trigger r),
       {| session := {| raw_handle := raw_handle (session w);
                        last_status := reply_status r;
                        buffers := buffers (session w) |};
          driver := driver w; calls := calls w ++ [c]; warnings := warnings w |}).
Proof.
  intros Hraw Hpos.
  assert (Hq : ∃ infos,
    (match sdi with
     | Some infos => mret infos
     | None => bs ← get_all_existing_data_buffers None None (Some 0);
               mret (Buffer.empty_streaming_info <$> bs)
     end : Py _) w = (Returns infos, w)).
  { destruct sdi as [infos|]; [by exists infos|].
    destruct (get_all_existing_data_buffers_sound w None None (Some 0)) as (out & E & _).
    { intros b _. unfold mismatches. simpl. destruct (bool_decide _); simpl; lia. }
    exists (Buffer.empty_streaming_info <$> out).
    unfold mbind, Py_bind. by rewrite E. }
  destruct Hq as (infos & Hq). exists infos. simpl.
  unfold get_streaming_latest_values.
  unfold mbind at 1. unfold Py_bind at 1. rewrite (handle_valid w h Hraw Hpos).
  unfold mbind at 1. unfold Py_bind at 1. rewrite Hq.
  unfold ll.get_streaming_latest_values. run_py.
  by destruct (bool_decide _).
Qed.

(** C2.  Status verification returns for the success status and, for every
    other status, raises a [PicoStatusError] carrying that status; either
    way the status is recorded.  When a streaming poll reaches the device,
    the status of the reply decides the outcome: success returns with the
    flag [full] false, the buffer-full status returns with [full] true and
    no exception, and every other status raises a [PicoStatusError]
    carrying it.  A session holding a valid handle does reach the device. *)
Theorem status_translation (w : World) (status : Z)
    (sdi : option (list PicoStreamingDataInfo)) :
  (status = PicoStatus.OK → (_verify_status status w).1 = Returns ()) ∧
  (status ≠ PicoStatus.OK → (_verify_status status w).1 = Raises (PicoStatusError status)) ∧
  last_status (session (_verify_status status w).2) = status ∧
  (∀ out w' c,
     get_streaming_latest_values sdi w = (out, w') →
     calls w' = calls w ++ [c] →
     reply_status (driver w (calls w) c) = status →
     last_status (session w') = status ∧
     (status = PicoStatus.OK → ∃ infos triggers, out = Returns (false, infos, triggers)) ∧
     (status = PicoStatus.WAITING_FOR_DATA_BUFFERS →
        ∃ infos triggers, out = Returns (true, infos, triggers)) ∧
     (status ≠ PicoStatus.OK → status ≠ PicoStatus.WAITING_FOR_DATA_BUFFERS →
        out = Raises (PicoStatusError status))) ∧
  (∀ h, raw_handle (session w) = Some h → 0 < h →
     ∃ out w' c, get_streaming_latest_values sdi w = (out, w') ∧ calls w' = calls w ++ [c]).
Proof.
  split_and!.
  - intros ->. by rewrite verify_status_ok.
  - intros Hne. by rewrite verify_status_raises.
  - run_py. by destruct (bool_decide _).
  - intros out w' c Hrun Hcalls Hst.
    destruct (handle_cases w) as [(h & Hraw & Hpos & _)|(e & He)].
    + destruct (get_streaming_latest_values_run w h sdi Hraw Hpos) as (infos & Hrun').
      simpl in Hrun'. rewrite Hrun in Hrun'. injection Hrun' as Hout Hw'.
      subst w'. simpl in Hcalls. apply app_inv_head in Hcalls. injection Hcalls as <-.
      rewrite Hst in Hout. simpl. split_and!; [done| | |].
      * intros ->. rewrite bool_decide_eq_false_2 in Hout by (intros [? _]; done).
        subst out. by eexists _, _.
      * intros ->. rewrite bool_decide_eq_false_2 in Hout by (intros [_ ?]; done).
        subst out. by eexists _, _.
      * intros H1 H2. rewrite bool_decide_eq_true_2 in Hout by done.
        subst out. by rewrite new_PicoStatusError_carries.
    + unfold get_streaming_latest_values in Hrun.
      unfold mbind at 1 in Hrun. unfold Py_bind at 1 in Hrun. rewrite He in Hrun.
      injection Hrun as _ <-. by apply app_singleton_neq in Hcalls.
  - intros h Hraw Hpos.
    destruct (get_streaming_latest_values_run w h sdi Hraw Hpos) as (infos & Hrun).
    simpl in Hrun. eexists _, _, _. split; [exact Hrun|done].
Qed.

(** A poll of a session holding handle 1 whose device reports the buffer
    full: the flag is raised and nothing is thrown, while plain status
    verification of the same status raises. *)
Lemma status_translation_witness :
  (∃ infos triggers,
     (get_streaming_latest_values None world_full).1 = Returns (true, infos, triggers)) ∧
  (_verify_status PicoStatus.WAITING_FOR_DATA_BUFFERS world_full).1
    = Raises (PicoStatusError PicoStatus.WAITING_FOR_DATA_BUFFERS).
Proof.
  destruct (status_translation world_full PicoStatus.WAITING_FOR_DATA_BUFFERS None)
    as (_ & Hverify & _ & Hpoll & _).
  split.
  - apply (Hpoll (get_streaming_latest_values None world_full).1
                 (get_streaming_latest_values None world_full).2
                 (ps6000aGetStreamingLatestValues 1
                    [Buffer.empty_streaming_info agg_max;
                     Buffer.empty_streaming_info agg_min])).
    + apply surjective_pairing.
    + vm_compute. reflexivity.
    + reflexivity.
    + reflexivity.
  - apply Hverify. discriminate.
Defined.

(** ** Writing to the registry *)

Lemma dd_mutate_clear (k : BufferClass.t) (d : gmap BufferClass.t (list Buffer.t)) :
  dd_mutate k (λ _, []) d = <[k := []]> d.
Proof.
  unfold dd_mutate, dd_getitem. destruct (d !! k); [done|]. apply insert_insert_eq.
Qed.

#[local] Arguments dd_mutate : simpl never.
#[local] Arguments ll.marshal_buffers : simpl never.

Lemma clear_data_buffers_outcomes (w : World) (channel data_type segment : Z) :
  (∃ e, clear_data_buffers channel data_type segment w = (Raises e, w)) ∨
  (∃ h, raw_handle (session w) = Some h ∧ 0 < h ∧
     let c := ps6000aSetDataBuffers h channel None None 0 data_type segment
                PicoRatioMode.RAW PicoAction.CLEAR_ALL in
     let s := reply_status (driver w (calls w) c) in
     let k := {| BufferClass.channel := channel; BufferClass.datatype := data_type;
                 BufferClass.segment := segment |} in
     clear_data_buffers channel data_type segment w =
       if bool_decide (s ≠ PicoStatus.OK)
       then (Raises (PicoStatusError s), after_call w c s (buffers (session w)))
       else (Returns (), after_call w c s (<[k := []]> (buffers (session w))))).
Proof.
  unfold clear_data_buffers.
  destruct (handle_cases w) as [(h & Hraw & Hpos & Hh)|(e & He)].
  - right. exists h. split_and!; [done..|].
    unfold mbind at 1. unfold Py_bind at 1. rewrite Hh.
    unfold ll.set_data_buffers, after_call. run_py.
    case_bool_decide as Hs.
    + by rewrite new_PicoStatusError_carries.
    + by rewrite dd_mutate_clear.
  - left. exists e. unfold mbind at 1. unfold Py_bind at 1. by rewrite He.
Qed.

Lemma marshal_buffers_raises bmax bmin data_type e :
  ll.marshal_buffers bmax bmin data_type = Raises e → validation_error e.
Proof.
  unfold ll.marshal_buffers, PicoDataType.sizeof_ctype.
  destruct bmax as [a|]; [|done]. destruct bmin as [b|];
    repeat (simpl; match goal with
            | |- context [if ?c then _ else _] => destruct c
            end); simpl; by intros [= <-].
Qed.

Lemma marshal_buffers_returns bmax bmin data_type p :
  ll.marshal_buffers (Some bmax) bmin data_type = Returns p →
  ∀ b, bmin = Some b → len bmax = len b.
Proof.
  unfold ll.marshal_buffers. intros H b ->.
  destruct (PicoDataType.sizeof_ctype data_type) as [sz|]; simpl in H; [|done].
  case_bool_decide; [done|]. case_bool_decide as Hlen; [done|].
  destruct (decide (len bmax = len b)); [done|]. by destruct Hlen.
Qed.

(** Every way [set_data_buffers] can go.  Either it raises before any call
    is made, leaving the world as it was: with a validation error, or, when
    the two buffers agree in class and mode and no valid handle is held,
    with the handle error.  Or the buffers agree in class, mode and length,
    one call reaches the device, and its status decides between raising
    with the registry untouched and returning with the registry updated. *)
Lemma set_data_buffers_outcomes (w : World) buffer_max buffer_min clear_others :
  (∃ e, set_data_buffers buffer_max buffer_min clear_others w = (Raises e, w) ∧
     ((validation_error e ∧
       ((∃ m, buffer_min = Some m ∧
           (Buffer.buffer_class m ≠ Buffer.buffer_class buffer_max ∨
            Buffer.downsampling_mode m ≠ Buffer.downsampling_mode buffer_max)) ∨
        (∃ h, raw_handle (session w) = Some h ∧ 0 < h))) ∨
      (e = new_PicoHandleError (raw_handle (session w)) ∧
       (∀ h, raw_handle (session w) = Some h → h ≤ 0) ∧
       ∀ m, buffer_min = Some m →
         Buffer.buffer_class m = Buffer.buffer_class buffer_max ∧
         Buffer.downsampling_mode m = Buffer.downsampling_mode buffer_max))) ∨
  (∃ h c,
     raw_handle (session w) = Some h ∧ 0 < h ∧
     (∀ m, buffer_min = Some m →
        Buffer.buffer_class m = Buffer.buffer_class buffer_max ∧
        Buffer.downsampling_mode m = Buffer.downsampling_mode buffer_max ∧
        Buffer.samples m = Buffer.samples buffer_max) ∧
     let s := reply_status (driver w (calls w) c) in
     set_data_buffers buffer_max buffer_min clear_others w =
       if bool_decide (s ≠ PicoStatus.OK)
       then (Raises (PicoStatusError s), after_call w c s (buffers (session w)))
       else (Returns (),
             after_call w c s
               (registry_after_set buffer_max buffer_min clear_others (buffers (session w))))).
Proof.
  remember (set_data_buffers buffer_max buffer_min clear_others w) as res eqn:Hres.
  unfold set_data_buffers in Hres. unfold mbind at 1 in Hres. unfold Py_bind at 1 in Hres.
  match type of Hres with context [?v w] =>
    match v with
    | match buffer_min with _ => _ end => set (validate := v) in Hres
    end
  end.
  assert (Hv :
    (∃ msg, validate w = (Raises (ValueError msg), w) ∧
       ∃ m, buffer_min = Some m ∧
         (Buffer.buffer_class m ≠ Buffer.buffer_class buffer_max ∨
          Buffer.downsampling_mode m ≠ Buffer.downsampling_mode buffer_max)) ∨
    (validate w = (Returns (Buffer.buffer <$> buffer_min), w) ∧
     ∀ m, buffer_min = Some m →
       Buffer.buffer_class m = Buffer.buffer_class buffer_max ∧
       Buffer.downsampling_mode m = Buffer.downsampling_mode buffer_max)).
  { subst validate. destruct buffer_min as [m|]; [|right; split; [done|by intros ? [=]]].
    case_bool_decide as Hc; [left; eexists; split; [done|]; exists m; by auto|].
    case_bool_decide as Hm; [left; eexists; split; [done|]; exists m; by auto|].
    right. split; [done|]. intros ? [= <-]. split.
    - destruct (decide (Buffer.buffer_class m = Buffer.buffer_class buffer_max)); [done|].
      by destruct Hc.
    - destruct (decide (Buffer.downsampling_mode m = Buffer.downsampling_mode buffer_max));
        [done|]. by destruct Hm. }
  destruct Hv as [(msg & Hv & Hwhy)|(Hv & Hsame)]; rewrite Hv in Hres; clear Hv validate.
  { left. eexists. split; [done|]. left. split; [done|]. by left. }
  unfold mbind at 1 in Hres. unfold Py_bind at 1 in Hres.
  destruct (handle_cases w) as [(h & Hraw & Hpos & Hh)|(e & He)].
  2:{ left. rewrite He in Hres. exists e. split; [done|]. right.
      assert (Hinv : match raw_handle (session w) with Some h => h ≤ 0 | None => True end).
      { destruct (raw_handle (session w)) as [h|] eqn:Hraw; [|done].
        destruct (decide (0 < h)) as [Hpos|]; [|lia].
        rewrite (handle_valid w h Hraw Hpos) in He. done. }
      rewrite (handle_invalid w Hinv) in He. injection He as <-.
      split_and!; [done| |done]. intros h Hraw. by rewrite Hraw in Hinv. }
  rewrite Hh in Hres. unfold ll.set_data_buffers in Hres.
  rewrite bool_decide_eq_false_2 in Hres by (intros [_ ?]; done).
  unfold mbind at 1 in Hres. unfold Py_bind at 1 in Hres.
  unfold mbind at 1 in Hres. unfold Py_bind at 1 in Hres.
  unfold lift at 1 in Hres.
  destruct (ll.marshal_buffers _ _ _) as [[[pmax pmin] n]|e] eqn:Hmar.
  2:{ left. exists e. split; [done|]. left.
      split; [by apply marshal_buffers_raises in Hmar|]. right. by exists h. }
  right.
  exists h, (ps6000aSetDataBuffers h (Buffer.channel buffer_max) pmax pmin n
               (Buffer.datatype buffer_max) (Buffer.segment buffer_max)
               (Buffer.downsampling_mode buffer_max)
               (if clear_others then Z.lor PicoAction.ADD PicoAction.CLEAR_ALL
                else PicoAction.ADD)).
  split_and!; [done..| |].
  { intros m ->. destruct (Hsame m eq_refl) as [? ?]. split_and!; [done..|].
    unfold Buffer.samples. symmetry. by apply (marshal_buffers_returns _ _ _ _ Hmar). }
  revert Hres. unfold after_call, registry_after_set. run_py. intros ->.
  case_bool_decide as Hs.
  - by rewrite new_PicoStatusError_carries.
  - destruct clear_others, buffer_min; simpl; reflexivity.
Qed.


Lemma new_PicoHandleError_invalid (rh : option Z) :
  (∀ h, rh = Some h → h ≤ 0) → ∃ msg, new_PicoHandleError rh = PicoHandleError rh msg.
Proof.
  intros Hinv. destruct rh as [h|]; [|by eexists].
  specialize (Hinv h eq_refl). unfold new_PicoHandleError.
  destruct (h <? 0) eqn:Hneg; [by eexists|].
  destruct (h =? 0) eqn:Hz; [by eexists|].
  apply Z.ltb_ge in Hneg. apply Z.eqb_neq in Hz. lia.
Qed.

(** C3, the claim as written: a MIN buffer shorter than its MAX buffer,
    handed to a session that was never opened, is turned away by the handle
    guard, not by a validation error. *)
Lemma length_mismatch_meets_handle_guard :
  Buffer.samples agg_min_short ≠ Buffer.samples agg_max ∧
  ∃ e, (set_data_buffers agg_max (Some agg_min_short) false world_new).1 = Raises e ∧
       ¬ validation_error e.
Proof.
  split; [done|]. exists (PicoHandleError None msg_no_handle). split; [reflexivity|].
  simpl. tauto.
Qed.

(** C3, as the code has it.  When the two buffers differ in class, in
    downsampling mode or in length, registration raises and leaves the
    whole session, the registry included, as it was, so neither buffer
    becomes visible.  The checks run in this order and the first that
    fails decides the error: a difference in class raises [ValueError]; a
    difference in mode raises [ValueError]; a session without a valid
    handle raises the handle error; a data type of [buffer_max] without a
    C type raises the [ValueError] of that lookup; a MAX array whose byte
    size does not fit the data type raises [TypeError]; and only then a
    difference in length raises [TypeError]. *)
Theorem set_data_buffers_rejects_mismatch (w : World) (buffer_max buffer_min : Buffer.t)
    (clear_others : bool)
    (Hdiff : Buffer.buffer_class buffer_min ≠ Buffer.buffer_class buffer_max ∨
             Buffer.downsampling_mode buffer_min ≠ Buffer.downsampling_mode buffer_max ∨
             Buffer.samples buffer_min ≠ Buffer.samples buffer_max) :
  ∃ e, set_data_buffers buffer_max (Some buffer_min) clear_others w = (Raises e, w) ∧
    (Buffer.buffer_class buffer_min ≠ Buffer.buffer_class buffer_max →
     e = ValueError "Both min and max buffers must have same buffer class."%string) ∧
    (Buffer.buffer_class buffer_min = Buffer.buffer_class buffer_max →
     Buffer.downsampling_mode buffer_min ≠ Buffer.downsampling_mode buffer_max →
     e = ValueError "Both min and max buffers must have same downsampling mode."%string) ∧
    (Buffer.buffer_class buffer_min = Buffer.buffer_class buffer_max →
     Buffer.downsampling_mode buffer_min = Buffer.downsampling_mode buffer_max →
     (∀ h, raw_handle (session w) = Some h → h ≤ 0) →
     e = new_PicoHandleError (raw_handle (session w)) ∧
     ∃ msg, e = PicoHandleError (raw_handle (session w)) msg) ∧
    (Buffer.buffer_class buffer_min = Buffer.buffer_class buffer_max →
     Buffer.downsampling_mode buffer_min = Buffer.downsampling_mode buffer_max →
     (∃ h, raw_handle (session w) = Some h ∧ 0 < h) →
     match PicoDataType.sizeof_ctype (Buffer.datatype buffer_max) with
     | Raises e' => e = e' ∧ ∃ msg, e = ValueError msg
     | Returns size =>
         e = TypeError
               (if bool_decide (sizeof (Buffer.buffer buffer_max)
                                ≠ Buffer.samples buffer_max * size)
                then "Buffer (max) size mismatch, is data type wrong?"%string
                else "Buffer min vs. max size mismatch."%string)
     end).
Proof.
  unfold set_data_buffers. unfold mbind at 1. unfold Py_bind at 1.
  destruct (decide (Buffer.buffer_class buffer_min = Buffer.buffer_class buffer_max))
    as [Hc|Hc].
  2:{ rewrite bool_decide_eq_true_2 by done. eexists. split; [reflexivity|].
      split_and!; [done|intros; done..]. }
  rewrite bool_decide_eq_false_2 by (intros H; by apply H).
  destruct (decide (Buffer.downsampling_mode buffer_min
                    = Buffer.downsampling_mode buffer_max)) as [Hm|Hm].
  2:{ rewrite bool_decide_eq_true_2 by done. eexists. split; [reflexivity|].
      split_and!; [done|done|intros; done..]. }
  rewrite bool_decide_eq_false_2 by (intros H; by apply H).
  assert (Hlen : len (Buffer.buffer buffer_max) ≠ len (Buffer.buffer buffer_min)).
  { destruct Hdiff as [?|[?|Hl]]; [done..|]. unfold Buffer.samples in Hl. congruence. }
  unfold mret at 1. unfold Py_ret at 1.
  unfold mbind at 1. unfold Py_bind at 1.
  destruct (handle_cases w) as [(h & Hraw & Hpos & Hh)|(e & He)].
  - rewrite Hh. unfold ll.set_data_buffers.
    rewrite bool_decide_eq_false_2 by (intros [_ ?]; done).
    unfold lift, mbind, Py_bind, ll.marshal_buffers.
    assert (Hcases :
      ∃ e, (PicoDataType.sizeof_ctype (Buffer.datatype buffer_max)
              ≫= λ sz,
                if bool_decide (sizeof (Buffer.buffer buffer_max)
                                ≠ len (Buffer.buffer buffer_max) * sz)
                then Raises (TypeError "Buffer (max) size mismatch, is data type wrong?"%string)
                else
                  if bool_decide (len (Buffer.buffer buffer_max)
                                  ≠ len (Buffer.buffer buffer_min))
                  then Raises (TypeError "Buffer min vs. max size mismatch."%string)
                  else
                    PicoDataType.sizeof_ctype (Buffer.datatype buffer_max)
                      ≫= λ sz',
                        if bool_decide (sizeof (Buffer.buffer buffer_min)
                                        ≠ len (Buffer.buffer buffer_max) * sz')
                        then Raises (TypeError
                                       "Buffer (min) size mismatch, is data type wrong?"%string)
                        else Returns (Some (addressof (Buffer.buffer buffer_max)),
                                      Some (addressof (Buffer.buffer buffer_min)),
                                      len (Buffer.buffer buffer_max)))
             = Raises e ∧
           match PicoDataType.sizeof_ctype (Buffer.datatype buffer_max) with
           | Raises e' => e = e' ∧ ∃ msg, e = ValueError msg
           | Returns size =>
               e = TypeError
                     (if bool_decide (sizeof (Buffer.buffer buffer_max)
                                      ≠ Buffer.samples buffer_max * size)
                      then "Buffer (max) size mismatch, is data type wrong?"%string
                      else "Buffer min vs. max size mismatch."%string)
           end).
    { destruct (PicoDataType.sizeof_ctype (Buffer.datatype buffer_max)) as [size|e] eqn:Hsize;
        simpl.
      - unfold Buffer.samples. case_bool_decide; [by eexists|].
        rewrite bool_decide_eq_true_2 by done. by eexists.
      - exists e. split_and!; [done..|]. revert Hsize. unfold PicoDataType.sizeof_ctype.
        repeat match goal with |- context [if ?c then _ else _] => destruct c end;
          try done. intros [= <-]. by eexists. }
    destruct Hcases as (e & Hrun & Hkind). simpl. rewrite Hrun.
    exists e. split; [done|]. split_and!; [done|done| |done].
    intros _ _ Hinv. specialize (Hinv h Hraw). lia.
  - rewrite He. exists e. split; [done|].
    assert (Hinv : match raw_handle (session w) with Some h => h ≤ 0 | None => True end).
    { destruct (raw_handle (session w)) as [h|] eqn:Hraw; [|done].
      destruct (decide (0 < h)) as [Hpos|]; [|lia].
      rewrite (handle_valid w h Hraw Hpos) in He. done. }
    rewrite (handle_invalid w Hinv) in He. injection He as <-.
    split_and!; [done|done| |].
    + intros _ _ Hno. split; [done|]. by apply new_PicoHandleError_invalid.
    + intros _ _ (h & Hraw & Hpos). rewrite Hraw in Hinv. lia.
Qed.

(** A session holding handle 1 is offered a MIN buffer of 5 samples for a
    MAX buffer of 10: the call raises the [TypeError] of the length check
    and the registry stays empty. *)
Lemma set_data_buffers_rejects_mismatch_witness :
  set_data_buffers agg_max (Some agg_min_short) false world_open
    = (Raises (TypeError "Buffer min vs. max size mismatch."%string), world_open).
Proof.
  destruct (set_data_buffers_rejects_mismatch world_open agg_max agg_min_short false)
    as (e & Hrun & _ & _ & _ & Hkind).
  - right. right. done.
  - rewrite Hrun. f_equal. f_equal.
    apply (Hkind eq_refl eq_refl). exists 1. split; [reflexivity|lia].
Defined.

Lemma dd_mutate_lookup (k : BufferClass.t) (m : list Buffer.t → list Buffer.t)
    (d : gmap BufferClass.t (list Buffer.t)) :
  dd_mutate k m d !! k = Some (m (default [] (d !! k))).
Proof.
  unfold dd_mutate, dd_getitem. destruct (d !! k) as [s|]; simpl; apply lookup_insert_eq.
Qed.

Lemma set_contains_add_mono (x y : Buffer.t) (s : list Buffer.t) :
  set_contains x s = true → set_contains x (set_add y s) = true.
Proof.
  intros Hc. apply set_contains_spec in Hc as (z & Hz & Heq).
  apply set_contains_spec. exists z. split; [|done]. apply elem_of_set_add. by left.
Qed.

(** A successful registration leaves a buffer equal to [buffer_max] in the
    set of its class. *)
Lemma registry_after_set_holds_max buffer_max buffer_min clear_others d :
  ∃ s, registry_after_set buffer_max buffer_min clear_others d
         !! Buffer.buffer_class buffer_max = Some s ∧
       set_contains buffer_max s = true.
Proof.
  unfold registry_after_set. cbv zeta.
  destruct buffer_min as [m|]; rewrite dd_mutate_lookup; eexists; (split; [reflexivity|]).
  - rewrite dd_mutate_lookup. simpl. apply set_contains_add_mono, set_contains_add.
  - apply set_contains_add.
Qed.

(** What a clear that returns has done. *)
Lemma clear_data_buffers_returns (w w' : World) (channel data_type segment : Z) :
  clear_data_buffers channel data_type segment w = (Returns (), w') →
  ∃ h, raw_handle (session w) = Some h ∧ 0 < h ∧
    let c := ps6000aSetDataBuffers h channel None None 0 data_type segment
               PicoRatioMode.RAW PicoAction.CLEAR_ALL in
    let k := {| BufferClass.channel := channel; BufferClass.datatype := data_type;
                BufferClass.segment := segment |} in
    w' = after_call w c PicoStatus.OK (<[k := []]> (buffers (session w))).
Proof.
  intros Hrun.
  destruct (clear_data_buffers_outcomes w channel data_type segment)
    as [(e & He)|(h & Hraw & Hpos & Hout)]; [congruence|].
  simpl in Hout. rewrite Hrun in Hout. exists h. split_and!; [done..|].
  case_bool_decide as Hs; [done|]. injection Hout as ->.
  destruct (decide (reply_status
    (driver w (calls w)
       (ps6000aSetDataBuffers h channel None None 0 data_type segment
          PicoRatioMode.RAW PicoAction.CLEAR_ALL)) = PicoStatus.OK)) as [->|]; done.
Qed.

(** C7.  A clear that succeeds has submitted one call to the device, a
    clear-all with null buffer addresses for the class; afterwards the set
    of that class is empty and the set of every other class is what it
    was. *)
Theorem clear_data_buffers_frame (w w' : World) (channel data_type segment : Z)
    (Hclear : clear_data_buffers channel data_type segment w = (Returns (), w')) :
  let k := {| BufferClass.channel := channel; BufferClass.datatype := data_type;
              BufferClass.segment := segment |} in
  buffers (session w') !! k = Some [] ∧
  (∀ k', k' ≠ k → buffers (session w') !! k' = buffers (session w) !! k') ∧
  ∃ h, raw_handle (session w) = Some h ∧
       calls w' = calls w ++ [ps6000aSetDataBuffers h channel None None 0 data_type segment
                                PicoRatioMode.RAW PicoAction.CLEAR_ALL].
Proof.
  apply clear_data_buffers_returns in Hclear as (h & Hraw & _ & ->). simpl. split_and!.
  - apply lookup_insert_eq.
  - intros k' Hne. by apply lookup_insert_ne.
  - by exists h.
Qed.

(** Clearing channel A of a session that holds handle 1 and has the
    aggregate pair registered. *)
Lemma clear_data_buffers_frame_witness :
  (clear_data_buffers PicoChannel.CHANNEL_A PicoDataType.INT8_T 0 world_with_pair).1
    = Returns () ∧
  buffers (session (clear_data_buffers PicoChannel.CHANNEL_A PicoDataType.INT8_T 0
                      world_with_pair).2) !! class_A = Some [].
Proof.
  split; [reflexivity|].
  apply (clear_data_buffers_frame world_with_pair _ PicoChannel.CHANNEL_A
           PicoDataType.INT8_T 0).
  vm_compute. reflexivity.
Defined.

(** What a registration that returns has done. *)
Lemma set_data_buffers_returns (w w' : World) buffer_max buffer_min clear_others :
  set_data_buffers buffer_max buffer_min clear_others w = (Returns (), w') →
  ∃ h c, raw_handle (session w) = Some h ∧ 0 < h ∧
    w' = after_call w c PicoStatus.OK
           (registry_after_set buffer_max buffer_min clear_others (buffers (session w))).
Proof.
  intros Hrun.
  destruct (set_data_buffers_outcomes w buffer_max buffer_min clear_others)
    as [(e & He & _)|(h & c & Hraw & Hpos & _ & Hout)]; [congruence|].
  simpl in Hout. rewrite Hrun in Hout. exists h, c. split_and!; [done..|].
  case_bool_decide as Hs; [done|]. injection Hout as ->.
  destruct (decide (reply_status (driver w (calls w) c) = PicoStatus.OK)) as [->|]; done.
Qed.

(** C6.  After a registration that succeeds, the query for the class of
    [buffer_max] holds a buffer equal to it; after a clear of that class
    that succeeds, the same query returns the empty set. *)
Theorem register_then_clear (w w1 w2 : World) (buffer_max : Buffer.t)
    (buffer_min : option Buffer.t) (clear_others : bool)
    (Hregister : set_data_buffers buffer_max buffer_min clear_others w = (Returns (), w1))
    (Hclear : clear_data_buffers (Buffer.channel buffer_max) (Buffer.datatype buffer_max)
                (Buffer.segment buffer_max) w1 = (Returns (), w2)) :
  (∃ s, (get_existing_data_buffers (Buffer.channel buffer_max) (Buffer.datatype buffer_max)
           (Buffer.segment buffer_max) w1).1 = Returns s ∧
        set_contains buffer_max s = true) ∧
  get_existing_data_buffers (Buffer.channel buffer_max) (Buffer.datatype buffer_max)
    (Buffer.segment buffer_max) w2 = (Returns [], w2) ∧
  buffers (session w2) !! Buffer.buffer_class buffer_max = Some [].
Proof.
  apply set_data_buffers_returns in Hregister as (h & c & Hraw & Hpos & ->).
  apply clear_data_buffers_returns in Hclear as (h' & _ & _ & ->).
  split_and!.
  - destruct (registry_after_set_holds_max buffer_max buffer_min clear_others
                (buffers (session w))) as (s & Hs & Hc).
    exists s. split; [|done].
    unfold get_existing_data_buffers, dd_getitem, after_call. run_py.
    fold (Buffer.buffer_class buffer_max). by rewrite Hs.
  - unfold get_existing_data_buffers, dd_getitem, after_call. run_py.
    fold (Buffer.buffer_class buffer_max). by rewrite lookup_insert_eq.
  - unfold after_call. simpl. fold (Buffer.buffer_class buffer_max).
    apply lookup_insert_eq.
Qed.

(** Registering the aggregate pair, then clearing channel A. *)
Lemma register_then_clear_witness :
  (get_existing_data_buffers PicoChannel.CHANNEL_A PicoDataType.INT8_T 0
     ((set_data_buffers agg_max (Some agg_min) false;;
       clear_data_buffers PicoChannel.CHANNEL_A PicoDataType.INT8_T 0) world_open).2).1
  = Returns [].
Proof.
  apply (f_equal fst
    (proj1 (proj2 (register_then_clear world_open
      (set_data_buffers agg_max (Some agg_min) false world_open).2
      ((set_data_buffers agg_max (Some agg_min) false;;
        clear_data_buffers PicoChannel.CHANNEL_A PicoDataType.INT8_T 0) world_open).2
      agg_max (Some agg_min) false
      ltac:(vm_compute; reflexivity) ltac:(vm_compute; reflexivity))))).
Defined.

(** C10.  Whenever one of the two registry-writing methods gets as far as
    the device and the reply carries a status other than success, the
    method raises a [PicoStatusError] with that status, records it as the
    last status, and leaves the registry exactly as it was. *)
Theorem registry_untouched_on_device_error (op : Py unit) (w w' : World)
    (out : Outcome unit) (c : DllCall)
    (Hop : registry_mutator op)
    (Hrun : op w = (out, w'))
    (Hcall : calls w' = calls w ++ [c])
    (Hstatus : reply_status (driver w (calls w) c) ≠ PicoStatus.OK) :
  out = Raises (PicoStatusError (reply_status (driver w (calls w) c))) ∧
  buffers (session w') = buffers (session w) ∧
  last_status (session w') = reply_status (driver w (calls w) c).
Proof.
  destruct Hop as [buffer_max buffer_min clear_others|channel data_type segment].
  - destruct (set_data_buffers_outcomes w buffer_max buffer_min clear_others)
      as [(e & He & _)|(h & c' & _ & _ & _ & Hout)].
    + rewrite Hrun in He. injection He as _ ->. by apply app_singleton_neq in Hcall.
    + simpl in Hout. rewrite Hrun in Hout.
      assert (c' = c) as ->.
      { destruct (bool_decide _); injection Hout as _ ->; simpl in Hcall;
          apply app_inv_head in Hcall; by injection Hcall. }
      rewrite bool_decide_eq_true_2 in Hout by done. by injection Hout as -> ->.
  - destruct (clear_data_buffers_outcomes w channel data_type segment)
      as [(e & He)|(h & _ & _ & Hout)].
    + rewrite Hrun in He. injection He as _ ->. by apply app_singleton_neq in Hcall.
    + simpl in Hout. rewrite Hrun in Hout.
      match type of Hout with context [driver w (calls w) ?x] => assert (x = c) as Hc end.
      { destruct (bool_decide _); injection Hout as _ ->; simpl in Hcall;
          apply app_inv_head in Hcall; by injection Hcall. }
      rewrite Hc in Hout.
      rewrite bool_decide_eq_true_2 in Hout by done. by injection Hout as -> ->.
Qed.

(** The device refuses a clear of channel A with [INVALID_HANDLE]: the
    aggregate pair stays registered. *)
Lemma registry_untouched_on_device_error_witness :
  buffers (session (clear_data_buffers PicoChannel.CHANNEL_A PicoDataType.INT8_T 0
                      world_refusing).2) = {[class_A := [agg_max; agg_min]]}.
Proof.
  refine (proj1 (proj2 (registry_untouched_on_device_error
    (clear_data_buffers PicoChannel.CHANNEL_A PicoDataType.INT8_T 0)
    world_refusing
    (clear_data_buffers PicoChannel.CHANNEL_A PicoDataType.INT8_T 0 world_refusing).2
    (clear_data_buffers PicoChannel.CHANNEL_A PicoDataType.INT8_T 0 world_refusing).1
    (ps6000aSetDataBuffers 1 PicoChannel.CHANNEL_A None None 0 PicoDataType.INT8_T 0
       PicoRatioMode.RAW PicoAction.CLEAR_ALL) _ _ _ _))).
  - constructor.
  - apply surjective_pairing.
  - reflexivity.
  - vm_compute. discriminate.
Defined.

(** ** Max/min pairing *)

Lemma store_slot0_min_absent key buffer (pairs : list (PairKey * PairSlots)) :
  Forall (λ p, p.2.2 = None) pairs →
  Forall (λ p, p.2.2 = None) (store_slot0 key buffer pairs).
Proof.
  induction 1 as [|[k slots] rest Hslot Hrest IH]; simpl.
  - by repeat constructor.
  - case_bool_decide; constructor; done.
Qed.

Lemma pairing_min_absent (bs : list (list Buffer.t)) (pairs : list (PairKey * PairSlots)) :
  Forall (λ p, p.2.2 = None) pairs →
  Forall (λ p, p.2.2 = None)
    (foldl (λ pairs bclass, foldl pairing_body pairs bclass) pairs bs).
Proof.
  revert pairs. induction bs as [|l bs IH]; intros pairs Hp; [done|].
  simpl. apply IH. clear IH. revert pairs Hp.
  induction l as [|b l IHl]; intros pairs Hp; [done|].
  simpl. apply IHl. unfold pairing_body.
  destruct (Buffer.max_min b); by apply store_slot0_min_absent.
Qed.

Lemma collect_pairs_min_absent (slots : list PairSlots) out (w : World) :
  Forall (λ s, s.2 = None) slots → Forall (λ p, p.2 = None) out →
  ∃ out' w', collect_pairs slots out w = (Returns out', w') ∧
             Forall (λ p, p.2 = None) out'.
Proof.
  revert out w. induction slots as [|[bmax bmin] rest IH]; intros out w Hs Ho.
  - by exists out, w.
  - apply Forall_cons in Hs as [Hhd Hs]. simpl in Hhd. subst bmin.
    destruct bmax as [b|]; simpl.
    + apply IH; [done|]. unfold tuple_set_add. destruct (existsb _ _); [done|].
      apply Forall_app. split; [done|]. by repeat constructor.
    + run_py. by apply IH.
Qed.

(** Whatever is registered, the pairing returns, and no pair it returns
    has anything in its MIN slot: the first loop never writes slot 1. *)
Lemma pairs_never_hold_min (w : World) (channel data_type segment : Z) :
  ∃ out w', get_existing_data_buffer_pairs channel data_type segment w = (Returns out, w') ∧
            ∀ p, p ∈ out → p.2 = None.
Proof.
  unfold get_existing_data_buffer_pairs. run_py.
  destruct (collect_pairs_min_absent
              ((foldl (λ pairs bclass, foldl pairing_body pairs bclass) []
                  (dict_values (buffers (session w)))).*2) [] w)
    as (out & w' & Hrun & Hout).
  - apply Forall_fmap. eapply Forall_impl; [apply pairing_min_absent; constructor|].
    by intros [k slots].
  - constructor.
  - exists out, w'. split; [done|]. by apply Forall_forall.
Qed.

(** C1, on the code.  With one MAX and one MIN buffer registered for the
    same class and downsampling mode, the pairing returns a single pair
    whose MIN slot is empty; which of the two buffers sits in the MAX slot
    depends on the order in which the set is walked.  Walked MAX first,
    the MAX buffer is lost and the MIN buffer stands in its place; walked
    MIN first, the MIN buffer is dropped. *)
Theorem pairing_overwrites_max_slot :
  (get_existing_data_buffer_pairs PicoChannel.CHANNEL_A PicoDataType.INT8_T 0
     world_with_pair).1 = Returns [(agg_min, None)] ∧
  (get_existing_data_buffer_pairs PicoChannel.CHANNEL_A PicoDataType.INT8_T 0
     world_with_pair_reversed).1 = Returns [(agg_max, None)].
Proof. split; vm_compute; reflexivity. Qed.

(** ** Opening while a unit is open *)

Lemma holds_valid_handle_true (w : World) (h : Z) :
  raw_handle (session w) = Some h → 0 < h → holds_valid_handle w = (Returns true, w).
Proof.
  intros Hraw Hpos. run_py. rewrite Hraw. apply valid_pos in Hpos. by rewrite Hpos.
Qed.

Lemma close_unit_run (w : World) (h : Z) :
  raw_handle (session w) = Some h → 0 < h →
  let c := ps6000aCloseUnit h in
  let s := reply_status (driver w (calls w) c) in
  close_unit w =
    if bool_decide (s ≠ PicoStatus.OK)
    then (Raises (PicoStatusError s), after_call w c s (buffers (session w)))
    else (Returns (),
          {| session := {| raw_handle := None; last_status := s;
                           buffers := buffers (session w) |};
             driver := driver w; calls := calls w ++ [c]; warnings := warnings w |}).
Proof.
  intros Hraw Hpos. simpl. unfold close_unit.
  unfold mbind at 1. unfold Py_bind at 1. rewrite (handle_valid w h Hraw Hpos).
  unfold ll.close_unit, after_call. run_py. case_bool_decide as Hs; [|done].
  by rewrite new_PicoStatusError_carries.
Qed.

(** [open_unit] with a unit already open: the warning is logged and the
    first call made is the close of the held handle; the open follows only
    if that close succeeded (and the serial number can be encoded). *)
Lemma open_unit_closes_first (w : World) (h : Z) serial resolution :
  raw_handle (session w) = Some h → 0 < h →
  ll.marshal_serial serial = Returns serial →
  let s := reply_status (driver w (calls w) (ps6000aCloseUnit h)) in
  warnings (open_unit serial resolution w).2 =
    warnings w ++ ["open_unit called while a unit is already open."%string] ∧
  calls (open_unit serial resolution w).2 =
    calls w ++ ps6000aCloseUnit h ::
      (if bool_decide (s ≠ PicoStatus.OK) then [] else [ps6000aOpenUnit serial resolution]).
Proof.
  intros Hraw Hpos Hser. simpl.
  remember (open_unit serial resolution w) as r eqn:Hr. unfold open_unit in Hr.
  unfold mbind at 1 in Hr. unfold Py_bind at 1 in Hr.
  rewrite (holds_valid_handle_true w h Hraw Hpos) in Hr.
  unfold mbind at 1 in Hr. unfold Py_bind at 1 in Hr.
  unfold mbind at 1 in Hr. unfold Py_bind at 1 in Hr.
  unfold logger_warning at 1 in Hr.
  match type of Hr with context [close_unit ?w1] =>
    pose proof (close_unit_run w1 h Hraw Hpos) as Hclose; simpl in Hclose;
    rewrite Hclose in Hr; clear Hclose
  end.
  unfold ll.open_unit, after_call in Hr. rewrite Hser in Hr.
  case_bool_decide as Hs; [by subst r|].
  revert Hr. run_py. intros ->. destruct (bool_decide _); simpl; by rewrite <- app_assoc.
Qed.

(** [open_unit_progress] does the same. *)
Lemma open_unit_progress_closes_first (w : World) (h : Z) :
  raw_handle (session w) = Some h → 0 < h →
  let s := reply_status (driver w (calls w) (ps6000aCloseUnit h)) in
  warnings (open_unit_progress w).2 =
    warnings w ++ ["open_unit_progress called while a unit is already open."%string] ∧
  calls (open_unit_progress w).2 =
    calls w ++ ps6000aCloseUnit h ::
      (if bool_decide (s ≠ PicoStatus.OK) then [] else [ps6000aOpenUnitProgress]).
Proof.
  intros Hraw Hpos. simpl.
  remember (open_unit_progress w) as r eqn:Hr. unfold open_unit_progress in Hr.
  unfold mbind at 1 in Hr. unfold Py_bind at 1 in Hr.
  rewrite (holds_valid_handle_true w h Hraw Hpos) in Hr.
  unfold mbind at 1 in Hr. unfold Py_bind at 1 in Hr.
  unfold mbind at 1 in Hr. unfold Py_bind at 1 in Hr.
  unfold logger_warning at 1 in Hr.
  match type of Hr with context [close_unit ?w1] =>
    pose proof (close_unit_run w1 h Hraw Hpos) as Hclose; simpl in Hclose;
    rewrite Hclose in Hr; clear Hclose
  end.
  unfold ll.open_unit_progress, after_call in Hr.
  case_bool_decide as Hs; [by subst r|].
  revert Hr. run_py. intros ->.
  repeat match goal with |- context [if ?b then _ else _] => destruct b end;
    simpl; by rewrite <- app_assoc.
Qed.

(** [open_unit_async] with a unit already open: the warning is logged, but
    the only call made is the asynchronous open, and the handle stays. *)
Lemma open_unit_async_never_closes (w : World) (h : Z) serial resolution :
  raw_handle (session w) = Some h → 0 < h →
  ll.marshal_serial serial = Returns serial →
  warnings (open_unit_async serial resolution w).2 =
    warnings w ++ ["open_unit_async called while a unit is already open."%string] ∧
  calls (open_unit_async serial resolution w).2 =
    calls w ++ [ps6000aOpenUnitAsync serial resolution] ∧
  raw_handle (session (open_unit_async serial resolution w).2) = Some h.
Proof.
  intros Hraw Hpos Hser.
  remember (open_unit_async serial resolution w) as r eqn:Hr. unfold open_unit_async in Hr.
  unfold mbind at 1 in Hr. unfold Py_bind at 1 in Hr.
  rewrite (holds_valid_handle_true w h Hraw Hpos) in Hr.
  unfold ll.open_unit_async in Hr. rewrite Hser in Hr. revert Hr. run_py. intros ->.
  by destruct (bool_decide _).
Qed.

(** C9, on the code.  A session holding handle 1 calls [open_unit_async]:
    the warning is logged and the open is started, but no close is sent to
    the device and the session still holds handle 1.  The same session
    calling [open_unit] or [open_unit_progress] closes handle 1 first. *)
Theorem open_unit_async_skips_close :
  (open_unit_async None 0 world_open).1 = Returns true ∧
  calls (open_unit_async None 0 world_open).2 = [ps6000aOpenUnitAsync None 0] ∧
  raw_handle (session (open_unit_async None 0 world_open).2) = Some 1 ∧
  warnings (open_unit_async None 0 world_open).2 =
    ["open_unit_async called while a unit is already open."%string] ∧
  calls (open_unit None 0 world_open).2 = [ps6000aCloseUnit 1; ps6000aOpenUnit None 0] ∧
  calls (open_unit_progress world_open).2 = [ps6000aCloseUnit 1; ps6000aOpenUnitProgress].
Proof. split_and!; vm_compute; reflexivity. Qed.

(** ** Callback trampolines *)

Lemma wf_empty_heap : callbacks.wf callbacks.empty_heap.
Proof. split; intros *; simpl; by rewrite lookup_empty. Qed.









(** ** Queries *)

Lemma registered_insert_empty (k : BufferClass.t) (d : gmap BufferClass.t (list Buffer.t))
    (b : Buffer.t) :
  d !! k = None → (registered (<[k := []]> d) b ↔ registered d b).
Proof.
  intros Hk. unfold registered. split; intros (k' & s & Hs & Hb).
  - apply lookup_insert_Some in Hs as [[_ <-]|[Hne Hs]].
    + by apply elem_of_nil in Hb.
    + by exists k', s.
  - exists k', s. split; [|done]. rewrite lookup_insert_ne; [done|]. congruence.
Qed.

(** C4, the claim as written.  A filtered query with two filters raises
    [KeyError] on a registered buffer that fails both, and the per-class
    query of a class with no key leaves that key behind in the mapping. *)
Lemma queries_raise_and_insert :
  (get_all_existing_data_buffers (Some PicoChannel.CHANNEL_B) (Some PicoDataType.INT16_T)
     None world_with_pair).1 = Raises KeyError ∧
  buffers (session world_new) !! class_A = None ∧
  buffers (session (get_existing_data_buffers PicoChannel.CHANNEL_A PicoDataType.INT8_T 0
                      world_new).2) !! class_A = Some [].
Proof. split_and!; vm_compute; reflexivity. Qed.

(** C4, as the code has it.  On a registry none of whose buffers fails
    more than one of the given filters, the filtered query returns without
    raising and without changing anything, and the set returned holds only
    registered buffers that match every given filter and, up to buffer
    equality, every such buffer.  The per-class query of a class that has
    no key returns the empty set and stores it under that key, which adds
    no buffer to the registry; of a class that has a key it returns the
    set stored and changes nothing. *)
Theorem registry_queries (w : World) (channel data_type segment : option Z)
    (ch dt sg : Z) :
  let k := {| BufferClass.channel := ch; BufferClass.datatype := dt;
              BufferClass.segment := sg |} in
  ((∀ b, registered (buffers (session w)) b →
         (mismatches channel data_type segment b ≤ 1)%nat) →
   ∃ out, get_all_existing_data_buffers channel data_type segment w = (Returns out, w) ∧
     (∀ x, x ∈ out →
        registered (buffers (session w)) x ∧ matches channel data_type segment x) ∧
     (∀ b, registered (buffers (session w)) b → matches channel data_type segment b →
        ∃ x, x ∈ out ∧ Buffer.eqb b x = true)) ∧
  (buffers (session w) !! k = None →
   get_existing_data_buffers ch dt sg w =
     (Returns [],
      with_session w {| raw_handle := raw_handle (session w);
                        last_status := last_status (session w);
                        buffers := <[k := []]> (buffers (session w)) |}) ∧
   ∀ b, registered (<[k := []]> (buffers (session w))) b ↔
        registered (buffers (session w)) b) ∧
  (∀ s, buffers (session w) !! k = Some s →
     (get_existing_data_buffers ch dt sg w).1 = Returns s ∧
     buffers (session (get_existing_data_buffers ch dt sg w).2) = buffers (session w)).
Proof.
  intros k. split_and!.
  - apply get_all_existing_data_buffers_sound.
  - intros Hk. split.
    + unfold get_existing_data_buffers, dd_getitem. run_py. fold k. by rewrite Hk.
    + intros b. by apply registered_insert_empty.
  - intros s Hs. unfold get_existing_data_buffers, dd_getitem. run_py. fold k.
    by rewrite Hs.
Qed.

(** Asking the session with the aggregate pair for the buffers of channel
    B, and a session never opened for those of channel A. *)
Lemma registry_queries_witness :
  (∃ out, get_all_existing_data_buffers (Some PicoChannel.CHANNEL_B) None None
            world_with_pair = (Returns out, world_with_pair) ∧
          ∀ x, x ∈ out → matches (Some PicoChannel.CHANNEL_B) None None x) ∧
  (get_existing_data_buffers PicoChannel.CHANNEL_A PicoDataType.INT8_T 0 world_new).1
    = Returns [].
Proof.
  split.
  - destruct (proj1 (registry_queries world_with_pair (Some PicoChannel.CHANNEL_B) None None
                       0 0 0)) as (out & Hrun & Hsound & _).
    + intros b _. unfold mismatches. simpl. destruct (bool_decide _); simpl; lia.
    + exists out. split; [exact Hrun|]. intros x Hx. by apply Hsound.
  - destruct (proj1 (proj2 (registry_queries world_new None None None
                              PicoChannel.CHANNEL_A PicoDataType.INT8_T 0))) as [Hrun _].
    + reflexivity.
    + by rewrite Hrun.
Defined.

(** * Properties of the further code *)

(** ** Enumeration helpers *)

Lemma PicoChannel_flag_cases (c : Z) :
  (0 ≤ c ≤ 7 ∧ PicoChannel_flag c = 2 ^ c) ∨
  (128 ≤ c ≤ 131 ∧ PicoChannel_flag c = 2 ^ (c - 112)) ∨
  ((c < 0 ∨ 7 < c < 128 ∨ 131 < c) ∧ PicoChannel_flag c = 0).
Proof.
  unfold PicoChannel_flag, PicoChannel.CHANNEL_A, PicoChannel_CHANNEL_H,
    PicoChannel_PORT0, PicoChannel_PORT3, PicoChannelFlags.CHANNEL_A, PicoChannelFlags.PORT0.
  repeat match goal with
         | |- context [Z.leb ?a ?b] => destruct (Z.leb_spec a b); simpl
         end;
    first
      [ left; split; [lia|]; rewrite Z.shiftl_mul_pow2, Z.sub_0_r by lia; lia
      | right; left; split; [lia|]; rewrite Z.shiftl_mul_pow2 by lia;
        change 65536 with (2 ^ 16); rewrite <- Z.pow_add_r by lia; f_equal; lia
      | right; right; split; [lia|reflexivity] ].
Qed.

Lemma land_pow2_distinct (a b : Z) : 0 ≤ a → 0 ≤ b → a ≠ b → Z.land (2 ^ a) (2 ^ b) = 0.
Proof.
  intros Ha Hb Hne. apply Z.bits_inj'. intros n Hn.
  rewrite Z.land_spec, Z.bits_0, !Z.pow2_bits_eqb by lia.
  destruct (Z.eqb_spec a n), (Z.eqb_spec b n); simpl; try done. lia.
Qed.

(** X1.  [PicoChannel.flag] gives each analog channel A to H and each
    digital port 0 to 3 a flag of its own, a single bit (bit [c] for a
    channel, bit [c - 112] for a port), and gives every other channel the
    empty flag; the flags of two different channels never share a bit. *)
Theorem PicoChannel_flag_one_bit_each (c1 c2 : Z) (Hne : c1 ≠ c2) :
  Z.land (PicoChannel_flag c1) (PicoChannel_flag c2) = 0 ∧
  (PicoChannel_flag c1 ≠ 0 ↔ 0 ≤ c1 ≤ 7 ∨ 128 ≤ c1 ≤ 131) ∧
  (0 ≤ c1 ≤ 7 → PicoChannel_flag c1 = 2 ^ c1) ∧
  (128 ≤ c1 ≤ 131 → PicoChannel_flag c1 = 2 ^ (c1 - 112)).
Proof.
  destruct (PicoChannel_flag_cases c1) as [[R1 E1]|[[R1 E1]|[R1 E1]]];
    destruct (PicoChannel_flag_cases c2) as [[R2 E2]|[[R2 E2]|[R2 E2]]];
    rewrite E1, ?E2; (split; [|split_and!]);
    try (apply land_pow2_distinct; lia);
    try (by rewrite ?Z.land_0_l, ?Z.land_0_r);
    try (intros; f_equal; lia);
    try (split; [intros; lia | intros _; apply Z.pow_nonzero; lia]);
    try (split; [intros H; by destruct H | lia]);
    try lia.
Qed.

Lemma PicoChannel_flag_one_bit_each_witness :
  Z.land (PicoChannel_flag PicoChannel.CHANNEL_B) (PicoChannel_flag PicoChannel_PORT3) = 0.
Proof.
  apply (PicoChannel_flag_one_bit_each PicoChannel.CHANNEL_B PicoChannel_PORT3).
  discriminate.
Defined.

(** X2.  Converting an optional boolean to a trigger state and back gives
    the value started from; converting a trigger state to an optional
    boolean and back gives the state started from exactly for the three
    defined states, and [DONT_CARE] for every other value. *)
Theorem PicoTriggerState_round_trip (value : option bool) (state : Z) :
  PicoTriggerState.as_bool (PicoTriggerState.from_bool value) = value ∧
  (PicoTriggerState.from_bool (PicoTriggerState.as_bool state) = state ↔
   state = PicoTriggerState.DONT_CARE ∨ state = PicoTriggerState.TRUE ∨
   state = PicoTriggerState.FALSE) ∧
  (state ≠ PicoTriggerState.TRUE ∧ state ≠ PicoTriggerState.FALSE ↔
   PicoTriggerState.from_bool (PicoTriggerState.as_bool state) = PicoTriggerState.DONT_CARE).
Proof.
  split; [by destruct value as [[]|]|].
  unfold PicoTriggerState.as_bool, PicoTriggerState.from_bool, PicoTriggerState.TRUE,
    PicoTriggerState.FALSE, PicoTriggerState.DONT_CARE.
  destruct (Z.eqb_spec state 1) as [->|H1]; [split; split; intros; lia|].
  destruct (Z.eqb_spec state 2) as [->|H2]; split; split; intros; lia.
Qed.

Lemma bits_known (r b : Z) :
  PicoDeviceResolution.bits r = Returns b ↔
  (r, b) ∈ PicoDeviceResolution._bits_lookup.
Proof.
  unfold PicoDeviceResolution.bits, PicoDeviceResolution._bits_lookup,
    PicoDeviceResolution.dict_get, PicoDeviceResolution.DR_8BIT,
    PicoDeviceResolution.DR_12BIT, PicoDeviceResolution.DR_14BIT,
    PicoDeviceResolution.DR_15BIT, PicoDeviceResolution.DR_16BIT,
    PicoDeviceResolution.DR_10BIT.
  rewrite !elem_of_cons, elem_of_nil.
  repeat match goal with
         | |- context [Z.eqb ?a ?b] => destruct (Z.eqb_spec a b); [subst|]
         end;
    (split; [intros [= <-]; tauto | intros H; decompose [or] H; congruence || done]).
Qed.

Lemma from_bits_known (r b : Z) :
  PicoDeviceResolution.from_bits b = Returns r ↔
  (r, b) ∈ PicoDeviceResolution._bits_lookup.
Proof.
  unfold PicoDeviceResolution.from_bits, PicoDeviceResolution._bits_lookup,
    PicoDeviceResolution.from_bits_loop, PicoDeviceResolution.DR_8BIT,
    PicoDeviceResolution.DR_12BIT, PicoDeviceResolution.DR_14BIT,
    PicoDeviceResolution.DR_15BIT, PicoDeviceResolution.DR_16BIT,
    PicoDeviceResolution.DR_10BIT.
  rewrite !elem_of_cons, elem_of_nil.
  repeat match goal with
         | |- context [Z.eqb ?a ?b] => destruct (Z.eqb_spec a b); [subst|]
         end;
    (split; [intros [= <-]; tauto | intros H; decompose [or] H; congruence || done]).
Qed.

(** X3.  [PicoDeviceResolution.bits] and [from_bits] are inverse to each
    other: a resolution has bit depth [b] exactly when [from_bits b] returns
    that resolution; [from_bits] raises exactly for the depths other than
    8, 10, 12, 14, 15 and 16. *)
Theorem PicoDeviceResolution_bits_round_trip (r b : Z) :
  (PicoDeviceResolution.bits r = Returns b ↔ PicoDeviceResolution.from_bits b = Returns r) ∧
  ((∃ r', PicoDeviceResolution.from_bits b = Returns r') ↔
   b = 8 ∨ b = 10 ∨ b = 12 ∨ b = 14 ∨ b = 15 ∨ b = 16).
Proof.
  split; [by rewrite bits_known, from_bits_known|].
  split.
  - intros [r' Hr']. apply from_bits_known in Hr'.
    unfold PicoDeviceResolution._bits_lookup in Hr'.
    rewrite !elem_of_cons, elem_of_nil in Hr'. decompose [or] Hr'; try done;
      match goal with H : (_, _) = (_, _) |- _ => injection H as _ -> end; tauto.
  - intros H. decompose [or] H; subst; eexists; reflexivity.
Qed.

(** X4.  The three tables of [PicoDataType] cover the same data types:
    [ctype], [min] and [max] either all return or all raise.  Where they
    return, the data type is one of the five from 0 to 4, the range from
    [min] to [max] holds exactly as many codes as the C type has bit
    patterns, and [min] is 0 for [UINT32_T] only. *)
Theorem PicoDataType_tables_agree (t : Z) :
  match PicoDataType.sizeof_ctype t, PicoDataType_min t, PicoDataType_max t with
  | Returns size, Returns lo, Returns hi =>
      hi - lo + 1 = 2 ^ (8 * size) ∧ lo ≤ 0 < hi ∧
      (0 ≤ t ≤ 4) ∧ (lo = 0 ↔ t = PicoDataType.UINT32_T)
  | Raises _, Raises _, Raises _ => t < 0 ∨ 4 < t
  | _, _, _ => False
  end.
Proof.
  unfold PicoDataType.sizeof_ctype, PicoDataType_min, PicoDataType_max,
    PicoDataType.INT8_T, PicoDataType.INT16_T, PicoDataType.INT32_T,
    PicoDataType.UINT32_T, PicoDataType.INT64_T.
  repeat match goal with
         | |- context [Z.eqb ?a ?b] => destruct (Z.eqb_spec a b); [subst|]
         end; try (split_and!; [reflexivity | lia.. | split; intros; lia]).
  lia.
Qed.

Lemma min_type_known (r t : Z) :
  PicoDeviceResolution.min_type r = Returns t ↔
  (r, t) ∈ PicoDeviceResolution._type_lookup.
Proof.
  unfold PicoDeviceResolution.min_type, PicoDeviceResolution._type_lookup,
    PicoDeviceResolution.dict_get, PicoDeviceResolution.DR_8BIT,
    PicoDeviceResolution.DR_12BIT, PicoDeviceResolution.DR_14BIT,
    PicoDeviceResolution.DR_15BIT, PicoDeviceResolution.DR_16BIT,
    PicoDeviceResolution.DR_10BIT.
  rewrite !elem_of_cons, elem_of_nil.
  repeat match goal with
         | |- context [Z.eqb ?a ?b] => destruct (Z.eqb_spec a b); [subst|]
         end;
    (split; [intros [= <-]; tauto | intros H; decompose [or] H; congruence || done]).
Qed.

(** X5.  For every resolution with a known bit depth [b], [min_type]
    returns a data type whose range holds every signed [b]-bit sample
    code, and no data type with a smaller C type does. *)
Theorem min_type_holds_resolution (r b : Z)
    (Hbits : PicoDeviceResolution.bits r = Returns b) :
  ∃ t size lo hi,
    PicoDeviceResolution.min_type r = Returns t ∧
    PicoDataType.sizeof_ctype t = Returns size ∧
    PicoDataType_min t = Returns lo ∧ PicoDataType_max t = Returns hi ∧
    lo ≤ - 2 ^ (b - 1) ∧ 2 ^ (b - 1) - 1 ≤ hi ∧
    ∀ t' size' lo' hi',
      PicoDataType.sizeof_ctype t' = Returns size' →
      PicoDataType_min t' = Returns lo' → PicoDataType_max t' = Returns hi' →
      lo' ≤ - 2 ^ (b - 1) → 2 ^ (b - 1) - 1 ≤ hi' → size ≤ size'.
Proof.
  apply bits_known in Hbits. unfold PicoDeviceResolution._bits_lookup in Hbits.
  rewrite !elem_of_cons, elem_of_nil in Hbits.
  assert (Hsmall : ∀ t' size' lo' hi',
    PicoDataType.sizeof_ctype t' = Returns size' →
    PicoDataType_min t' = Returns lo' → PicoDataType_max t' = Returns hi' →
    1 ≤ size' ∧ (size' = 1 → hi' = 127)).
  { intros t' size' lo' hi'.
    unfold PicoDataType.sizeof_ctype, PicoDataType_min, PicoDataType_max,
      PicoDataType.INT8_T, PicoDataType.INT16_T, PicoDataType.INT32_T,
      PicoDataType.UINT32_T, PicoDataType.INT64_T.
    repeat match goal with
           | |- context [Z.eqb ?a ?b] => destruct (Z.eqb_spec a b); [subst|]
           end; intros [= <-] [= <-] [= <-]; lia || done. }
  decompose [or] Hbits; try done;
    match goal with H : (_, _) = (_, _) |- _ => injection H as -> -> end;
    eexists _, _, _, _; (split_and!; [reflexivity.. | | |]);
    try (vm_compute; discriminate);
    intros t' size' lo' hi' Hs Hlo Hhi Hfit_lo Hfit_hi;
    destruct (Hsmall t' size' lo' hi' Hs Hlo Hhi) as [H1 H127];
    try lia;
    (destruct (decide (size' = 1)) as [->|]; [|lia]);
    specialize (H127 eq_refl); subst hi'; exfalso; revert Hfit_hi; vm_compute; tauto.
Qed.

Lemma min_type_holds_resolution_witness :
  ∃ t, PicoDeviceResolution.min_type PicoDeviceResolution.DR_12BIT = Returns t.
Proof.
  destruct (min_type_holds_resolution PicoDeviceResolution.DR_12BIT 12)
    as (t & _ & _ & _ & Ht & _).
  - reflexivity.
  - by exists t.
Defined.

(** ** Counting the registry *)

Lemma elem_of_all_buffers (d : gmap BufferClass.t (list Buffer.t)) (b : Buffer.t) :
  b ∈ all_buffers d ↔ registered d b.
Proof.
  unfold all_buffers, registered. rewrite list_elem_of_join. split.
  - intros (l & Hb & Hl). apply elem_of_dict_values in Hl as [k Hk]. by exists k, l.
  - intros (k & l & Hk & Hb). exists l. split; [done|].
    apply elem_of_dict_values. by exists k.
Qed.

Lemma all_buffers_insert (k : BufferClass.t) (s : list Buffer.t)
    (d : gmap BufferClass.t (list Buffer.t)) :
  all_buffers (<[k := s]> d) ≡ₚ s ++ all_buffers (delete k d).
Proof.
  unfold all_buffers, dict_values. rewrite <- insert_delete_eq.
  rewrite map_to_list_insert by apply lookup_delete_eq. done.
Qed.

Lemma all_buffers_lookup (k : BufferClass.t) (d : gmap BufferClass.t (list Buffer.t)) :
  all_buffers d ≡ₚ default [] (d !! k) ++ all_buffers (delete k d).
Proof.
  destruct (d !! k) as [s|] eqn:Hk; simpl.
  - unfold all_buffers, dict_values. by rewrite <- (map_to_list_delete d k s Hk).
  - by rewrite delete_id.
Qed.

Lemma foldl_count (L : list (list Buffer.t)) (a : Z) :
  foldl (λ count bufset, count + Z.of_nat (length bufset)) a L
    = a + Z.of_nat (length (mjoin L)).
Proof.
  revert a. induction L as [|l L IH]; intros a; simpl; [lia|].
  rewrite IH, length_app. lia.
Qed.

Lemma total_existing_data_buffers_run (w : World) :
  total_existing_data_buffers w
    = (Returns (Z.of_nat (length (all_buffers (buffers (session w))))), w).
Proof.
  unfold total_existing_data_buffers, all_buffers. run_py. by rewrite foldl_count.
Qed.

(** X6.  [total_existing_data_buffers] never raises and changes nothing;
    the count it returns is zero exactly when no buffer is registered, and
    it is at least the number of buffers of any one class. *)
Theorem total_zero_iff_nothing_registered (w : World) (k : BufferClass.t) :
  ∃ n, total_existing_data_buffers w = (Returns n, w) ∧
    (n = 0 ↔ ∀ b, ¬ registered (buffers (session w)) b) ∧
    Z.of_nat (length (default [] (buffers (session w) !! k))) ≤ n.
Proof.
  eexists. split; [apply total_existing_data_buffers_run|]. split.
  - split.
    + intros Hn b Hb. apply elem_of_all_buffers in Hb.
      destruct (all_buffers (buffers (session w))); [by apply elem_of_nil in Hb|done].
    + intros Hnone. destruct (all_buffers (buffers (session w))) as [|b l] eqn:Hl; [done|].
      destruct (Hnone b). apply elem_of_all_buffers. rewrite Hl. by left.
  - rewrite (all_buffers_lookup k), length_app. lia.
Qed.

(** X7.  A clear that succeeds lowers the total by exactly the number of
    buffers the cleared class held. *)
Theorem clear_lowers_total (w w' : World) (channel data_type segment : Z)
    (Hclear : clear_data_buffers channel data_type segment w = (Returns (), w')) :
  let k := {| BufferClass.channel := channel; BufferClass.datatype := data_type;
              BufferClass.segment := segment |} in
  ∃ n n', total_existing_data_buffers w = (Returns n, w) ∧
          total_existing_data_buffers w' = (Returns n', w') ∧
          n' = n - Z.of_nat (length (default [] (buffers (session w) !! k))).
Proof.
  intros k. apply clear_data_buffers_returns in Hclear as (h & _ & _ & ->).
  eexists _, _. split_and!; [apply total_existing_data_buffers_run..|].
  unfold after_call. simpl. fold k.
  rewrite all_buffers_insert, (all_buffers_lookup k (buffers (session w))), !length_app.
  simpl. lia.
Qed.

Lemma clear_lowers_total_witness :
  (total_existing_data_buffers world_with_pair).1 = Returns 2 ∧
  (total_existing_data_buffers
     (clear_data_buffers PicoChannel.CHANNEL_A PicoDataType.INT8_T 0 world_with_pair).2).1
    = Returns 0.
Proof.
  destruct (clear_lowers_total world_with_pair
              (clear_data_buffers PicoChannel.CHANNEL_A PicoDataType.INT8_T 0
                 world_with_pair).2
              PicoChannel.CHANNEL_A PicoDataType.INT8_T 0)
    as (n & n' & Hn & Hn' & Heq).
  - vm_compute. reflexivity.
  - split; [reflexivity|]. rewrite Hn'. simpl. rewrite Heq.
    assert (n = 2) as -> by (vm_compute in Hn; congruence).
    reflexivity.
Defined.

(** ** The device boundary of [set_data_buffers] *)

Lemma marshal_buffers_shape (bmax bmin : option CArray) (data_type : Z)
    (pmax pmin : option Z) (n : Z) :
  ¬ (is_Some bmin ∧ bmax = None) →
  ll.marshal_buffers bmax bmin data_type = Returns (pmax, pmin, n) →
  pmax = addressof <$> bmax ∧ pmin = addressof <$> bmin ∧
  n = default 0 (len <$> bmax) ∧
  ∀ a, bmax = Some a ∨ bmin = Some a →
    len a = n ∧ ∃ size, PicoDataType.sizeof_ctype data_type = Returns size ∧
                        sizeof a = n * size.
Proof.
  unfold ll.marshal_buffers. intros Hnot.
  destruct bmax as [a|].
  2:{ destruct bmin as [b|]; [destruct Hnot; eauto|].
      intros [= <- <- <-]. split_and!; [done..|]. by intros a [?|?]. }
  destruct (PicoDataType.sizeof_ctype data_type) as [size|] eqn:Hsize; simpl; [|done].
  case_bool_decide as Hmax; [done|].
  assert (sizeof a = len a * size) as Hmax'.
  { destruct (decide (sizeof a = len a * size)); [done|]. by destruct Hmax. }
  destruct bmin as [b|].
  - case_bool_decide as Hlen; [done|].
    assert (len a = len b) as Hlen'.
    { destruct (decide (len a = len b)); [done|]. by destruct Hlen. }
    simpl. case_bool_decide as Hmin; [done|].
    assert (sizeof b = len a * size) as Hmin'.
    { destruct (decide (sizeof b = len a * size)); [done|]. by destruct Hmin. }
    intros [= <- <- <-]. split_and!; [done..|].
    intros x [[= <-]|[= <-]]; (split; [done|]); exists size; done.
  - intros [= <- <- <-]. split_and!; [done..|].
    intros x [[= <-]|?]; [|done]. split; [done|]. by exists size.
Qed.

(** Every way the low-level [set_data_buffers] can go. *)
Lemma ll_set_data_buffers_cases (w : World) (h channel : Z)
    (buffer_max buffer_min : option CArray) (data_type waveform mode action : Z) :
  (∃ e, ll.set_data_buffers h channel buffer_max buffer_min data_type waveform mode action w
          = (Raises e, w) ∧ validation_error e) ∨
  (∃ n,
     let c := ps6000aSetDataBuffers h channel (addressof <$> buffer_max)
                (addressof <$> buffer_min) n data_type waveform mode action in
     ll.set_data_buffers h channel buffer_max buffer_min data_type waveform mode action w
       = (Returns (reply_status (driver w (calls w) c)), called w c) ∧
     n = default 0 (len <$> buffer_max) ∧
     (is_Some buffer_min → is_Some buffer_max) ∧
     ∀ a, buffer_max = Some a ∨ buffer_min = Some a →
       len a = n ∧ ∃ size, PicoDataType.sizeof_ctype data_type = Returns size ∧
                           sizeof a = n * size).
Proof.
  unfold ll.set_data_buffers. case_bool_decide as Hnot.
  { left. eexists. split; [reflexivity|done]. }
  destruct (ll.marshal_buffers buffer_max buffer_min data_type)
    as [[[pmax pmin] n]|e] eqn:Hmar.
  - right. exists n.
    destruct (marshal_buffers_shape _ _ _ _ _ _ Hnot Hmar) as (-> & -> & Hn & Hall).
    simpl. split_and!; [|done| |done].
    + unfold called. by run_py.
    + intros Hmin. destruct buffer_max; [done|]. destruct Hnot. by split.
  - left. exists e. split; [|by apply marshal_buffers_raises in Hmar].
    by run_py.
Qed.


(** ** Registration, step by step *)

(** [set_data_buffers] once its own checks and the handle guard have
    passed: the low-level call decides the rest. *)
Lemma set_data_buffers_run (w : World) (buffer_max : Buffer.t)
    (buffer_min : option Buffer.t) (clear_others : bool) (h : Z) :
  raw_handle (session w) = Some h → 0 < h →
  (∀ m, buffer_min = Some m →
     Buffer.buffer_class m = Buffer.buffer_class buffer_max ∧
     Buffer.downsampling_mode m = Buffer.downsampling_mode buffer_max) →
  set_data_buffers buffer_max buffer_min clear_others w =
    match ll.set_data_buffers h (Buffer.channel buffer_max)
            (Some (Buffer.buffer buffer_max)) (Buffer.buffer <$> buffer_min)
            (Buffer.datatype buffer_max) (Buffer.segment buffer_max)
            (Buffer.downsampling_mode buffer_max)
            (if clear_others then Z.lor PicoAction.ADD PicoAction.CLEAR_ALL
             else PicoAction.ADD) w with
    | (Raises e, w1) => (Raises e, w1)
    | (Returns s, w1) =>
        if bool_decide (s ≠ PicoStatus.OK)
        then (Raises (PicoStatusError s),
              with_session w1 {| raw_handle := raw_handle (session w1); last_status := s;
                                 buffers := buffers (session w1) |})
        else (Returns (),
              with_session w1
                {| raw_handle := raw_handle (session w1); last_status := s;
                   buffers := registry_after_set buffer_max buffer_min clear_others
                                (buffers (session w1)) |})
    end.
Proof.
  intros Hraw Hpos Hsame. unfold set_data_buffers.
  unfold mbind at 1. unfold Py_bind at 1.
  assert (Hv :
    (match buffer_min with
     | Some bmin =>
         if bool_decide (Buffer.buffer_class bmin ≠ Buffer.buffer_class buffer_max)
         then raise (ValueError "Both min and max buffers must have same buffer class."%string)
         else if bool_decide (Buffer.downsampling_mode bmin
                              ≠ Buffer.downsampling_mode buffer_max)
         then raise (ValueError
                       "Both min and max buffers must have same downsampling mode."%string)
         else mret (Some (Buffer.buffer bmin))
     | None => mret None
     end : Py (option CArray)) w = (Returns (Buffer.buffer <$> buffer_min), w)).
  { destruct buffer_min as [m|]; [|done]. destruct (Hsame m eq_refl) as [Hc Hm].
    rewrite !bool_decide_eq_false_2 by (intros ?; done). done. }
  rewrite Hv. clear Hv.
  unfold mbind at 1. unfold Py_bind at 1. rewrite (handle_valid w h Hraw Hpos).
  unfold mbind at 1. unfold Py_bind at 1.
  destruct (ll.set_data_buffers _ _ _ _ _ _ _ _ w) as [[s|e] w1]; [|done].
  unfold registry_after_set. run_py. case_bool_decide as Hs.
  - by rewrite new_PicoStatusError_carries.
  - destruct clear_others, buffer_min; simpl; reflexivity.
Qed.

Lemma dd_mutate_insert (k : BufferClass.t) (m : list Buffer.t → list Buffer.t)
    (d : gmap BufferClass.t (list Buffer.t)) :
  dd_mutate k m d = <[k := m (default [] (d !! k))]> d.
Proof.
  unfold dd_mutate, dd_getitem. destruct (d !! k); simpl; [done|]. apply insert_insert_eq.
Qed.

(** The set a successful registration leaves for the class. *)
Lemma registry_after_set_insert buffer_max buffer_min clear_others
    (d : gmap BufferClass.t (list Buffer.t)) :
  let k := Buffer.buffer_class buffer_max in
  let s0 := if clear_others : bool then [] else default [] (d !! k) in
  let s1 := set_add buffer_max s0 in
  registry_after_set buffer_max buffer_min clear_others d =
    <[k := match buffer_min with Some m => set_add m s1 | None => s1 end]> d.
Proof.
  unfold registry_after_set. cbv zeta.
  destruct clear_others, buffer_min as [m|]; rewrite !dd_mutate_insert;
    rewrite ?lookup_insert_eq, ?insert_insert_eq; simpl; reflexivity.
Qed.

(** A registration that returns: the one call it made, and the world it
    leaves. *)
Lemma set_data_buffers_success (w w' : World) (buffer_max : Buffer.t)
    (buffer_min : option Buffer.t) (clear_others : bool) :
  set_data_buffers buffer_max buffer_min clear_others w = (Returns (), w') →
  ∃ h, raw_handle (session w) = Some h ∧ 0 < h ∧
    let c := ps6000aSetDataBuffers h (Buffer.channel buffer_max)
               (Some (addressof (Buffer.buffer buffer_max)))
               (addressof <$> (Buffer.buffer <$> buffer_min))
               (len (Buffer.buffer buffer_max))
               (Buffer.datatype buffer_max) (Buffer.segment buffer_max)
               (Buffer.downsampling_mode buffer_max)
               (if clear_others then Z.lor PicoAction.ADD PicoAction.CLEAR_ALL
                else PicoAction.ADD) in
    reply_status (driver w (calls w) c) = PicoStatus.OK ∧
    w' = after_call w c PicoStatus.OK
           (registry_after_set buffer_max buffer_min clear_others (buffers (session w))).
Proof.
  intros Hrun.
  destruct (set_data_buffers_outcomes w buffer_max buffer_min clear_others)
    as [(e & He & _)|(h & _ & Hraw & Hpos & Hsame & _)]; [congruence|].
  exists h. split_and!; [done..|].
  rewrite (set_data_buffers_run w buffer_max buffer_min clear_others h Hraw Hpos) in Hrun.
  2:{ intros m Hm. destruct (Hsame m Hm) as (? & ? & _). done. }
  destruct (ll_set_data_buffers_cases w h (Buffer.channel buffer_max)
              (Some (Buffer.buffer buffer_max)) (Buffer.buffer <$> buffer_min)
              (Buffer.datatype buffer_max) (Buffer.segment buffer_max)
              (Buffer.downsampling_mode buffer_max)
              (if clear_others then Z.lor PicoAction.ADD PicoAction.CLEAR_ALL
               else PicoAction.ADD))
    as [(e & He & _)|(n & Hcall & Hn & _)].
  - rewrite He in Hrun. done.
  - simpl in Hcall, Hn. subst n. rewrite Hcall in Hrun. simpl.
    case_bool_decide as Hs; [done|].
    assert (Hok : reply_status
      (driver w (calls w)
         (ps6000aSetDataBuffers h (Buffer.channel buffer_max)
            (Some (addressof (Buffer.buffer buffer_max)))
            (addressof <$> (Buffer.buffer <$> buffer_min))
            (len (Buffer.buffer buffer_max)) (Buffer.datatype buffer_max)
            (Buffer.segment buffer_max) (Buffer.downsampling_mode buffer_max)
            (if clear_others then Z.lor PicoAction.ADD PicoAction.CLEAR_ALL
             else PicoAction.ADD))) = PicoStatus.OK).
    { match goal with |- ?x = _ => destruct (decide (x = PicoStatus.OK)); [done|] end.
      by destruct Hs. }
    split; [done|]. injection Hrun as <-. unfold after_call, called, with_session. simpl.
    by rewrite Hok.
Qed.

Lemma set_contains_false (x : Buffer.t) (s : list Buffer.t) :
  set_contains x s = false ↔ Buffer.compare_fields x ∉ Buffer.compare_fields <$> s.
Proof.
  split.
  - intros Hc Hin. apply list_elem_of_fmap in Hin as (y & Hxy & Hy).
    assert (set_contains x s = true); [|congruence].
    apply set_contains_spec. exists y. split; [done|]. by apply Buffer_eqb_fields.
  - intros Hnin. destruct (set_contains x s) eqn:Hc; [|done].
    apply set_contains_spec in Hc as (y & Hy & Heq). destruct Hnin.
    apply list_elem_of_fmap. exists y. split; [|done]. by apply Buffer_eqb_fields.
Qed.

Lemma set_wf_add (x : Buffer.t) (s : list Buffer.t) : set_wf s → set_wf (set_add x s).
Proof.
  unfold set_wf, set_add. intros Hs. destruct (set_contains x s) eqn:Hc; [done|].
  rewrite fmap_app. apply NoDup_app. split_and!; [done| |apply NoDup_singleton].
  intros f Hf Hf'. simpl in Hf'. apply list_elem_of_singleton in Hf' as ->.
  by apply set_contains_false in Hc.
Qed.

(** X9.  A registration that succeeds writes to the set of one class
    only, that of [buffer_max]: the set of every other class is what it
    was.  The set of that class afterwards holds what it held before
    (nothing of it when [clear_others] is set), and beyond that only the
    buffers just handed in, each of which it holds up to buffer equality. *)
Theorem set_data_buffers_one_class (w w' : World) (buffer_max : Buffer.t)
    (buffer_min : option Buffer.t) (clear_others : bool)
    (Hregister : set_data_buffers buffer_max buffer_min clear_others w = (Returns (), w')) :
  let k := Buffer.buffer_class buffer_max in
  let old := default [] (buffers (session w) !! k) in
  (∀ k', k' ≠ k → buffers (session w') !! k' = buffers (session w) !! k') ∧
  ∃ s', buffers (session w') !! k = Some s' ∧
    (∀ x, x ∈ s' → (clear_others = false ∧ x ∈ old) ∨ x = buffer_max ∨ buffer_min = Some x) ∧
    (clear_others = false → ∀ x, x ∈ old → x ∈ s') ∧
    set_contains buffer_max s' = true ∧
    (∀ m, buffer_min = Some m → set_contains m s' = true).
Proof.
  intros k old.
  apply set_data_buffers_success in Hregister as (h & _ & _ & _ & ->).
  unfold after_call. simpl. rewrite registry_after_set_insert. cbv zeta. fold k. split.
  - intros k' Hne. by rewrite lookup_insert_ne.
  - eexists. split; [apply lookup_insert_eq|]. fold old.
    destruct buffer_min as [m|]; split_and!.
    + intros x Hx. apply elem_of_set_add in Hx as [Hx|[-> _]]; [|by auto].
      apply elem_of_set_add in Hx as [Hx|[-> _]]; [|by auto].
      destruct clear_others; [by apply elem_of_nil in Hx|by auto].
    + intros -> x Hx. apply elem_of_set_add. left. apply elem_of_set_add. by left.
    + apply set_contains_add_mono, set_contains_add.
    + intros ? [= <-]. apply set_contains_add.
    + intros x Hx. apply elem_of_set_add in Hx as [Hx|[-> _]]; [|by auto].
      destruct clear_others; [by apply elem_of_nil in Hx|by auto].
    + intros -> x Hx. apply elem_of_set_add. by left.
    + apply set_contains_add.
    + by intros ? [=].
Qed.

Lemma set_data_buffers_one_class_witness :
  ∃ s', buffers (session (set_data_buffers agg_max (Some agg_min) true world_with_pair).2)
          !! class_A = Some s' ∧
        set_contains agg_max s' = true.
Proof.
  destruct (set_data_buffers_one_class world_with_pair
              (set_data_buffers agg_max (Some agg_min) true world_with_pair).2
              agg_max (Some agg_min) true) as (_ & s' & Hs' & _ & _ & Hc & _).
  - vm_compute. reflexivity.
  - exists s'. split; [exact Hs'|exact Hc].
Defined.

(** X10.  Handing in again buffers that are equal, field for field apart
    from the array, to buffers the class already holds does not replace
    them: the registration succeeds, the device is given the addresses of
    the new arrays, and the registry is exactly what it was, still holding
    the buffers registered first. *)
Theorem reregistration_keeps_first (w w' : World) (buffer_max : Buffer.t)
    (buffer_min : option Buffer.t) (s : list Buffer.t)
    (Hclass : buffers (session w) !! Buffer.buffer_class buffer_max = Some s)
    (Hmax : set_contains buffer_max s = true)
    (Hmin : ∀ m, buffer_min = Some m → set_contains m s = true)
    (Hregister : set_data_buffers buffer_max buffer_min false w = (Returns (), w')) :
  buffers (session w') = buffers (session w) ∧
  ∃ h, raw_handle (session w) = Some h ∧
    calls w' = calls w ++
      [ps6000aSetDataBuffers h (Buffer.channel buffer_max)
         (Some (addressof (Buffer.buffer buffer_max)))
         (addressof <$> (Buffer.buffer <$> buffer_min))
         (len (Buffer.buffer buffer_max)) (Buffer.datatype buffer_max)
         (Buffer.segment buffer_max) (Buffer.downsampling_mode buffer_max) PicoAction.ADD].
Proof.
  apply set_data_buffers_success in Hregister as (h & Hraw & _ & _ & ->).
  unfold after_call. simpl. split; [|by exists h].
  rewrite registry_after_set_insert. cbv zeta. rewrite Hclass. simpl.
  destruct buffer_min as [m|]; unfold set_add; rewrite Hmax.
  - rewrite (Hmin m eq_refl). by apply insert_id.
  - by apply insert_id.
Qed.

Lemma reregistration_keeps_first_witness :
  buffers (session (set_data_buffers
                      (sample_buffer 12288 10 PicoRatioMode.AGGREGATE MAX) None false
                      world_with_pair).2) !! class_A = Some [agg_max; agg_min].
Proof.
  rewrite (proj1 (reregistration_keeps_first world_with_pair
    (set_data_buffers (sample_buffer 12288 10 PicoRatioMode.AGGREGATE MAX) None false
       world_with_pair).2
    (sample_buffer 12288 10 PicoRatioMode.AGGREGATE MAX) None [agg_max; agg_min]
    ltac:(reflexivity) ltac:(reflexivity) ltac:(intros ? [=])
    ltac:(vm_compute; reflexivity))).
  reflexivity.
Defined.

(** ** An invariant of the registry *)

Lemma registry_wf_insert (k : BufferClass.t) (s : list Buffer.t)
    (d : gmap BufferClass.t (list Buffer.t)) :
  registry_wf d → set_wf s → (∀ b, b ∈ s → Buffer.buffer_class b = k) →
  registry_wf (<[k := s]> d).
Proof.
  intros Hd Hs Hk k' s' Hlook. apply lookup_insert_Some in Hlook as [[<- <-]|[_ Hlook]].
  - done.
  - by apply Hd.
Qed.

Lemma registry_wf_default (k : BufferClass.t) (d : gmap BufferClass.t (list Buffer.t)) :
  registry_wf d →
  set_wf (default [] (d !! k)) ∧
  ∀ b, b ∈ default [] (d !! k) → Buffer.buffer_class b = k.
Proof.
  intros Hd. destruct (d !! k) as [s|] eqn:Hk; simpl.
  - by apply Hd.
  - split; [apply NoDup_nil_2|]. intros b Hb. by apply elem_of_nil in Hb.
Qed.

Lemma registry_wf_after_set buffer_max buffer_min clear_others
    (d : gmap BufferClass.t (list Buffer.t)) :
  registry_wf d →
  (∀ m, buffer_min = Some m → Buffer.buffer_class m = Buffer.buffer_class buffer_max) →
  registry_wf (registry_after_set buffer_max buffer_min clear_others d).
Proof.
  intros Hd Hsame. rewrite registry_after_set_insert. cbv zeta.
  destruct (registry_wf_default (Buffer.buffer_class buffer_max) d Hd) as [Hwf Hcls].
  set (s0 := if clear_others then [] else default [] (d !! Buffer.buffer_class buffer_max)).
  assert (Hwf0 : set_wf s0) by (subst s0; destruct clear_others; [apply NoDup_nil_2|done]).
  assert (Hcls0 : ∀ b, b ∈ s0 → Buffer.buffer_class b = Buffer.buffer_class buffer_max).
  { subst s0. destruct clear_others; [|done]. intros b Hb. by apply elem_of_nil in Hb. }
  apply registry_wf_insert; [done| |].
  - destruct buffer_min; repeat apply set_wf_add; done.
  - intros b Hb. destruct buffer_min as [m|].
    + apply elem_of_set_add in Hb as [Hb|[-> _]]; [|by apply Hsame].
      apply elem_of_set_add in Hb as [Hb|[-> _]]; [by apply Hcls0|done].
    + apply elem_of_set_add in Hb as [Hb|[-> _]]; [by apply Hcls0|done].
Qed.

(** X11.  In the registry of a new session, and from then on after every
    call of [set_data_buffers], [clear_data_buffers] or
    [get_existing_data_buffers], whatever its outcome, every buffer is
    filed under its own class and no class holds two buffers that are
    equal under buffer equality. *)
Theorem registry_wf_preserved (w : World)
    (Hwf : registry_wf (buffers (session w))) :
  registry_wf (buffers PS6000A_init) ∧
  (∀ op, registry_mutator op → registry_wf (buffers (session (op w).2))) ∧
  (∀ channel data_type segment,
     registry_wf (buffers (session (get_existing_data_buffers channel data_type segment w).2))).
Proof.
  split_and!.
  - intros k s Hs. simpl in Hs. by rewrite lookup_empty in Hs.
  - intros op [buffer_max buffer_min clear_others|channel data_type segment].
    + destruct (set_data_buffers_outcomes w buffer_max buffer_min clear_others)
        as [(e & -> & _)|(h & c & _ & _ & Hsame & Hout)]; [done|].
      simpl in Hout. rewrite Hout. case_bool_decide; simpl; [done|].
      apply registry_wf_after_set; [done|]. intros m Hm. by destruct (Hsame m Hm).
    + destruct (clear_data_buffers_outcomes w channel data_type segment)
        as [(e & ->)|(h & _ & _ & Hout)]; [done|].
      simpl in Hout. rewrite Hout. case_bool_decide; simpl; [done|].
      apply registry_wf_insert; [done|apply NoDup_nil_2|].
      intros b Hb. by apply elem_of_nil in Hb.
  - intros channel data_type segment.
    unfold get_existing_data_buffers, dd_getitem. run_py.
    destruct (buffers (session w) !! _) eqn:Hk; simpl; [done|].
    apply registry_wf_insert; [done|apply NoDup_nil_2|].
    intros b Hb. by apply elem_of_nil in Hb.
Qed.

Lemma registry_wf_preserved_witness :
  registry_wf (buffers (session (set_data_buffers agg_max (Some agg_min) false world_open).2)).
Proof.
  refine (proj1 (proj2 (registry_wf_preserved world_open _)) _ _).
  - intros k s Hs. simpl in Hs. by rewrite lookup_empty in Hs.
  - constructor.
Defined.

(** ** When the filtered query raises *)

Lemma for_each_filter_raises channel data_type segment (l : list Buffer.t) out :
  (∃ b, b ∈ l ∧ (2 ≤ mismatches channel data_type segment b)%nat) →
  for_each (filter_body channel data_type segment) l out = Raises KeyError.
Proof.
  revert out. induction l as [|b0 l IH]; intros out (b & Hb & Hm).
  - by apply elem_of_nil in Hb.
  - simpl. destruct (decide (2 ≤ mismatches channel data_type segment b0)%nat) as [H2|H2].
    + by rewrite filter_body_raise.
    + destruct (filter_body_sound channel data_type segment out b0) as (o1 & -> & _);
        [lia|].
      apply IH. exists b. split; [|done].
      apply elem_of_cons in Hb as [->|Hb]; [lia|done].
Qed.

Lemma for_each_filter_outer_raises channel data_type segment (L : list (list Buffer.t)) out :
  (∃ l b, l ∈ L ∧ b ∈ l ∧ (2 ≤ mismatches channel data_type segment b)%nat) →
  for_each (λ out bclass, for_each (filter_body channel data_type segment) bclass out) L out
    = Raises KeyError.
Proof.
  revert out. induction L as [|l0 L IH]; intros out (l & b & Hl & Hb & Hm).
  - by apply elem_of_nil in Hl.
  - simpl.
    destruct (decide (Exists (λ b, 2 ≤ mismatches channel data_type segment b)%nat l0))
      as [Hex|Hnex].
    + apply Exists_exists in Hex. by rewrite for_each_filter_raises.
    + destruct (for_each_filter_inner channel data_type segment l0 out) as (o1 & -> & _).
      { intros b' Hb'. rewrite Exists_exists in Hnex.
        destruct (decide (mismatches channel data_type segment b' ≤ 1)%nat); [done|].
        destruct Hnex. exists b'. split; [done|lia]. }
      apply IH. exists l, b. split_and!; [|done..].
      apply elem_of_cons in Hl as [->|Hl]; [|done].
      destruct Hnex. apply Exists_exists. by exists b.
Qed.

(** X12.  The filtered query never changes the session.  It raises
    exactly when some registered buffer fails two or more of the filters
    given, and what it raises then is [KeyError]; so a query with at most
    one filter given always returns. *)
Theorem filtered_query_raises_iff (w : World) (channel data_type segment : option Z) :
  (get_all_existing_data_buffers channel data_type segment w).2 = w ∧
  ((∃ e, (get_all_existing_data_buffers channel data_type segment w).1 = Raises e) ↔
   ∃ b, registered (buffers (session w)) b ∧
        (2 ≤ mismatches channel data_type segment b)%nat) ∧
  (∀ e, (get_all_existing_data_buffers channel data_type segment w).1 = Raises e →
        e = KeyError) ∧
  ((channel = None ∧ data_type = None) ∨ (channel = None ∧ segment = None) ∨
   (data_type = None ∧ segment = None) →
   ∃ out, (get_all_existing_data_buffers channel data_type segment w).1 = Returns out).
Proof.
  destruct (decide (Exists (λ b, 2 ≤ mismatches channel data_type segment b)%nat
                      (all_buffers (buffers (session w))))) as [Hex|Hnex].
  - apply Exists_exists in Hex as (b & Hb & Hm). apply elem_of_all_buffers in Hb.
    assert (Hrun : get_all_existing_data_buffers channel data_type segment w
                   = (Raises KeyError, w)).
    { unfold get_all_existing_data_buffers. run_py.
      rewrite for_each_filter_outer_raises; [done|].
      destruct Hb as (k & l & Hk & Hbl). exists l, b. split_and!; [|done..].
      apply elem_of_dict_values. by exists k. }
    rewrite Hrun. simpl. split_and!; [done| |by intros e [= <-]|].
    + split; [intros _; by exists b|intros _; by eexists].
    + intros Hone. exfalso. revert Hm. unfold mismatches.
      destruct Hone as [[-> ->]|[[-> ->]|[-> ->]]]; simpl;
        match goal with |- context [Nat.b2n ?x] => destruct x end; simpl; lia.
  - destruct (get_all_existing_data_buffers_sound w channel data_type segment)
      as (out & Hrun & _).
    { intros b Hb. apply elem_of_all_buffers in Hb. rewrite Exists_exists in Hnex.
      destruct (decide (mismatches channel data_type segment b ≤ 1)%nat); [done|].
      destruct Hnex. exists b. split; [done|lia]. }
    rewrite Hrun. simpl. split_and!; [done| |done|by exists out].
    split; [by intros [e ?]|].
    intros (b & Hb & Hm). destruct Hnex. apply Exists_exists. exists b.
    split; [by apply elem_of_all_buffers|done].
Qed.

(** ** Pairing when no two buffers share a key *)

Lemma foldl_nested {A B} (f : A → B → A) (L : list (list B)) (a : A) :
  foldl (λ a l, foldl f a l) a L = foldl f a (mjoin L).
Proof.
  revert a. induction L as [|l L IH]; intros a; simpl; [done|].
  by rewrite IH, foldl_app.
Qed.

Lemma store_slot0_fresh key buffer (pairs : list (PairKey * PairSlots)) :
  key ∉ pairs.*1 → store_slot0 key buffer pairs = pairs ++ [(key, (Some buffer, None))].
Proof.
  induction pairs as [|[k slots] rest IH]; intros Hfresh; simpl; [done|].
  rewrite fmap_cons, not_elem_of_cons in Hfresh. destruct Hfresh as [Hne Hrest].
  rewrite bool_decide_eq_false_2 by done. by rewrite IH.
Qed.

Lemma pairing_fresh (l : list Buffer.t) (pairs : list (PairKey * PairSlots)) :
  NoDup (pairs.*1 ++ (pair_key <$> l)) →
  foldl pairing_body pairs l
    = pairs ++ ((λ b, (pair_key b, (Some b, None))) <$> l).
Proof.
  revert pairs. induction l as [|b l IH]; intros pairs Hnd; simpl.
  - by rewrite app_nil_r.
  - assert (Hstep : pairing_body pairs b = pairs ++ [(pair_key b, (Some b, None))]).
    { unfold pairing_body. fold (pair_key b).
      assert (pair_key b ∉ pairs.*1).
      { apply NoDup_app in Hnd as (_ & Hdisj & _). intros Hin.
        apply (Hdisj _ Hin). rewrite fmap_cons. by left. }
      destruct (Buffer.max_min b); by apply store_slot0_fresh. }
    rewrite Hstep, IH.
    + by rewrite <- app_assoc.
    + rewrite fmap_app. simpl. rewrite <- app_assoc. done.
Qed.

Lemma tuple_eqb_keys (a b : Buffer.t) :
  tuple_eqb (a, None) (b, None) = true → pair_key a = pair_key b.
Proof.
  unfold tuple_eqb. simpl. rewrite andb_true_r. intros Heq.
  apply Buffer_eqb_fields in Heq. unfold Buffer.compare_fields in Heq.
  unfold pair_key. congruence.
Qed.

Lemma collect_pairs_fresh (l done_ : list Buffer.t) (w : World) :
  NoDup (pair_key <$> (done_ ++ l)) →
  collect_pairs ((λ b, (Some b, None)) <$> l) ((λ b, (b, None)) <$> done_) w
    = (Returns ((λ b, (b, None)) <$> (done_ ++ l)), w).
Proof.
  revert done_. induction l as [|b l IH]; intros done_ Hnd; simpl.
  - by rewrite app_nil_r.
  - assert (Hadd : tuple_set_add (b, None) ((λ b, (b, None)) <$> done_)
                   = (λ b, (b, None)) <$> (done_ ++ [b])).
    { unfold tuple_set_add.
      destruct (existsb _ _) eqn:Hex; [|by rewrite fmap_app].
      apply existsb_exists in Hex as (p & Hp & Heq).
      apply list_elem_of_In, list_elem_of_fmap in Hp as (b' & -> & Hb').
      apply tuple_eqb_keys in Heq.
      rewrite fmap_app in Hnd. apply NoDup_app in Hnd as (_ & Hdisj & _).
      destruct (Hdisj (pair_key b')); [by apply list_elem_of_fmap_2|].
      rewrite fmap_cons, <- Heq. by left. }
    rewrite Hadd. rewrite IH; [by rewrite <- app_assoc|].
    by rewrite <- app_assoc.
Qed.

(** The pairing of a registry without two buffers of one key. *)
Lemma pairing_distinct_keys_run (w : World) (channel data_type segment : Z)
    (Hkeys : NoDup (pair_key <$> all_buffers (buffers (session w)))) :
  get_existing_data_buffer_pairs channel data_type segment w
    = (Returns ((λ b, (b, None)) <$> all_buffers (buffers (session w))), w).
Proof.
  unfold get_existing_data_buffer_pairs. run_py.
  rewrite foldl_nested. fold (all_buffers (buffers (session w))).
  rewrite pairing_fresh by done. simpl.
  rewrite <- list_fmap_compose.
  change (snd ∘ (λ b : Buffer.t, (pair_key b, (Some b, @None Buffer.t))))
    with (λ b : Buffer.t, (Some b, @None Buffer.t)).
  apply (collect_pairs_fresh _ [] w). done.
Qed.

(** X13.  When no two registered buffers share channel, data type,
    segment and downsampling mode (as when only MAX buffers are
    registered), the pairing returns, as a set and in no particular order,
    exactly one pair per registered buffer, the buffer in the MAX slot and
    the MIN slot empty; it logs nothing and changes nothing. *)
Theorem pairing_of_distinct_keys (w : World) (channel data_type segment : Z)
    (Hkeys : NoDup (pair_key <$> all_buffers (buffers (session w)))) :
  ∃ pairs,
    get_existing_data_buffer_pairs channel data_type segment w = (Returns pairs, w) ∧
    pairs ≡ₚ (λ b, (b, None)) <$> all_buffers (buffers (session w)) ∧
    ∀ p, p ∈ pairs ↔ ∃ b, registered (buffers (session w)) b ∧ p = (b, None).
Proof.
  eexists. split; [by apply pairing_distinct_keys_run|]. split; [done|].
  intros p. rewrite list_elem_of_fmap. split.
  - intros (b & -> & Hb). exists b. split; [by apply elem_of_all_buffers|done].
  - intros (b & Hb & ->). exists b. split; [done|by apply elem_of_all_buffers].
Qed.

(** With one MAX buffer per downsampling mode registered, the aggregate
    one comes back alone in a pair of its own. *)
Lemma pairing_of_distinct_keys_witness :
  ∃ pairs,
    (get_existing_data_buffer_pairs PicoChannel.CHANNEL_A PicoDataType.INT8_T 0
       world_two_modes).1 = Returns pairs ∧
    (agg_max, None) ∈ pairs ∧ length pairs = 2%nat.
Proof.
  destruct (pairing_of_distinct_keys world_two_modes PicoChannel.CHANNEL_A
              PicoDataType.INT8_T 0) as (pairs & Hrun & Hperm & Hin).
  - vm_compute. repeat constructor; rewrite ?elem_of_cons, ?elem_of_nil; intuition congruence.
  - exists pairs. split_and!.
    + by rewrite Hrun.
    + apply Hin. exists agg_max. split; [|done].
      exists class_A, [agg_max; raw_max]. split; [reflexivity|]. by left.
    + by rewrite Hperm.
Defined.

(** ** Reloading *)

Lemma store_slot0_registered (Q : Buffer.t → Prop) key buffer
    (pairs : list (PairKey * PairSlots)) :
  Q buffer →
  Forall (λ p, ∃ b, p.2 = (Some b, None) ∧ Q b) pairs →
  Forall (λ p, ∃ b, p.2 = (Some b, None) ∧ Q b) (store_slot0 key buffer pairs).
Proof.
  intros Hq. induction 1 as [|[k slots] rest (b & Hb & Hqb) Hrest IH]; simpl.
  - repeat constructor. by exists buffer.
  - case_bool_decide; constructor; try done.
    + exists buffer. simpl in *. by rewrite Hb.
    + by exists b.
Qed.

Lemma pairing_registered (Q : Buffer.t → Prop) (l : list Buffer.t)
    (pairs : list (PairKey * PairSlots)) :
  (∀ b, b ∈ l → Q b) →
  Forall (λ p, ∃ b, p.2 = (Some b, None) ∧ Q b) pairs →
  Forall (λ p, ∃ b, p.2 = (Some b, None) ∧ Q b) (foldl pairing_body pairs l).
Proof.
  revert pairs. induction l as [|b l IH]; intros pairs Hl Hp; [done|].
  simpl. apply IH; [intros b' Hb'; apply Hl; by right|].
  unfold pairing_body. destruct (Buffer.max_min b);
    (apply store_slot0_registered; [apply Hl; by left|done]).
Qed.

Lemma collect_pairs_registered (Q : Buffer.t → Prop) (slots : list PairSlots)
    (out : list (Buffer.t * option Buffer.t)) (w : World) :
  Forall (λ s, ∃ b, s = (Some b, None) ∧ Q b) slots →
  Forall (λ p, p.2 = None ∧ Q p.1) out →
  ∃ out', collect_pairs slots out w = (Returns out', w) ∧
          Forall (λ p, p.2 = None ∧ Q p.1) out'.
Proof.
  revert out. induction slots as [|slot rest IH]; intros out Hs Ho.
  - by exists out.
  - apply Forall_cons in Hs as [(b & -> & Hq) Hs]. simpl. apply IH; [done|].
    unfold tuple_set_add. destruct (existsb _ _); [done|].
    apply Forall_app. split; [done|]. by repeat constructor.
Qed.

(** The pairing hands back registered buffers only, and leaves the world
    alone. *)
Lemma pairs_are_registered (w : World) (channel data_type segment : Z) :
  ∃ out, get_existing_data_buffer_pairs channel data_type segment w = (Returns out, w) ∧
         Forall (λ p, p.2 = None ∧ registered (buffers (session w)) p.1) out.
Proof.
  unfold get_existing_data_buffer_pairs. run_py. rewrite foldl_nested.
  apply collect_pairs_registered; [|constructor].
  apply Forall_fmap.
  eapply Forall_impl;
    [apply (pairing_registered (registered (buffers (session w)))); [|constructor]|].
  - intros b Hb. by apply elem_of_all_buffers.
  - intros [k slots] (b & Hb & Hq). by exists b.
Qed.

Lemma same_but_calls_trans (w1 w2 w3 : World) :
  same_but_calls w1 w2 → same_but_calls w2 w3 → same_but_calls w1 w3.
Proof. unfold same_but_calls. intros (-> & -> & -> & ->) (-> & -> & -> & ->). done. Qed.

Lemma reload_loop_frame (h : Z) (pairs : list (Buffer.t * option Buffer.t))
    (out : list Buffer.t) (w : World) :
  same_but_calls w (reload_loop h pairs out w).2 ∧
  (∃ cs, calls (reload_loop h pairs out w).2 = calls w ++ cs ∧
         (length cs ≤ length pairs)%nat ∧
         Forall (λ c, ∃ p, p ∈ pairs ∧ adds_buffer h p.1 c) cs) ∧
  (∀ res, (reload_loop h pairs out w).1 = Returns res →
     ∀ b, b ∈ res → b ∈ out ∨ ∃ p, p ∈ pairs ∧ (b = p.1 ∨ p.2 = Some b)).
Proof.
  revert out w. induction pairs as [|[bmax bmin] rest IH]; intros out w.
  - simpl. split_and!; [done| |by intros res [= <-]; auto].
    exists []. by rewrite app_nil_r.
  - remember (reload_loop h ((bmax, bmin) :: rest) out w) as r eqn:Hr.
    simpl in Hr. unfold mbind at 1 in Hr. unfold Py_bind at 1 in Hr.
    destruct (ll_set_data_buffers_cases w h (Buffer.channel bmax)
                (Some (Buffer.buffer bmax)) (Buffer.buffer <$> bmin)
                (Buffer.datatype bmax) (Buffer.segment bmax)
                (Buffer.downsampling_mode bmax) PicoAction.ADD)
      as [(e & He & _)|(n & Hcall & _)].
    { rewrite He in Hr. subst r. simpl. split_and!; [done| |done]. exists [].
      rewrite app_nil_r. split_and!; [done|simpl; lia|constructor]. }
    simpl in Hcall. rewrite Hcall in Hr. clear Hcall.
    set (c := ps6000aSetDataBuffers h (Buffer.channel bmax)
                (Some (addressof (Buffer.buffer bmax)))
                (addressof <$> (Buffer.buffer <$> bmin)) n (Buffer.datatype bmax)
                (Buffer.segment bmax) (Buffer.downsampling_mode bmax) PicoAction.ADD) in *.
    assert (Hc : ∃ p, p ∈ (bmax, bmin) :: rest ∧ adds_buffer h p.1 c).
    { exists (bmax, bmin). split; [by left|]. by eexists _, _. }
    unfold mbind at 1 in Hr. unfold Py_bind at 1 in Hr.
    revert Hr. unfold _verify_status, called. run_py. case_bool_decide as Hs.
    { intros ->. simpl. split_and!; [done| |done]. exists [c].
      split_and!; [done|simpl; lia|by constructor]. }
    intros ->.
    match goal with |- context [reload_loop h rest ?o ?w1] =>
      destruct (IH o w1) as (Hframe & (cs & Hcs & Hlen & Hall) & Hres)
    end.
    split_and!.
    + destruct Hframe as (? & ? & ? & ?). done.
    + exists (c :: cs). rewrite Hcs. simpl. rewrite <- app_assoc.
      split_and!; [done|simpl; lia|].
      constructor; [done|]. eapply Forall_impl; [exact Hall|].
      intros c' (p & Hp & Ha). exists p. split; [by right|done].
    + intros res Hr b Hb. destruct (Hres res Hr b Hb) as [Hin|(p & Hp & Hbp)].
      * destruct bmin as [m|].
        -- apply elem_of_set_add in Hin as [Hin|[-> _]];
             [|right; exists (bmax, Some m); split; [by left|by right]].
           apply elem_of_set_add in Hin as [Hin|[-> _]]; [by left|].
           right. exists (bmax, Some m). split; [by left|by left].
        -- apply elem_of_set_add in Hin as [Hin|[-> _]]; [by left|].
           right. exists (bmax, None). split; [by left|by left].
      * right. exists p. split; [by right|done].
Qed.

(** X14.  [reload_data_buffers] never writes to the registry or to the
    stored handle, whatever its outcome.  Every call it makes submits the
    array of a registered buffer with the plain add action, every buffer
    it reports as reloaded is a registered buffer, and without a valid
    handle it raises the handle error before any call. *)
Theorem reload_data_buffers_frame (w : World) (channel data_type segment : Z) :
  same_but_calls w (reload_data_buffers channel data_type segment w).2 ∧
  (∃ cs, calls (reload_data_buffers channel data_type segment w).2 = calls w ++ cs ∧
     Forall (λ c, ∃ h b, raw_handle (session w) = Some h ∧
                         registered (buffers (session w)) b ∧ adds_buffer h b c) cs) ∧
  (∀ out, (reload_data_buffers channel data_type segment w).1 = Returns out →
     ∀ b, b ∈ out → registered (buffers (session w)) b) ∧
  ((∀ h, raw_handle (session w) = Some h → h ≤ 0) →
   reload_data_buffers channel data_type segment w
     = (Raises (new_PicoHandleError (raw_handle (session w))), w)).
Proof.
  remember (reload_data_buffers channel data_type segment w) as r eqn:Hr.
  unfold reload_data_buffers in Hr. unfold mbind at 1 in Hr. unfold Py_bind at 1 in Hr.
  destruct (handle_cases w) as [(h & Hraw & Hpos & Hh)|(e & He)].
  - rewrite Hh in Hr. unfold mbind, Py_bind in Hr.
    destruct (pairs_are_registered w channel data_type segment) as (pairs & Hp & Hpairs).
    rewrite Hp in Hr. subst r.
    destruct (reload_loop_frame h pairs [] w) as (Hframe & (cs & Hcs & _ & Hall) & Hres).
    rewrite Forall_forall in Hpairs.
    split_and!; [done| | |].
    + exists cs. split; [done|]. eapply Forall_impl; [exact Hall|].
      intros c (p & Hp' & Ha). exists h, p.1. split_and!; [done| |done].
      by apply (Hpairs p).
    + intros out Hout b Hb. destruct (Hres out Hout b Hb) as [Hnil|(p & Hp' & [->|Hmin])].
      * by apply elem_of_nil in Hnil.
      * by apply (Hpairs p).
      * destruct (Hpairs p Hp') as [Hnone _]. congruence.
    + intros Hinv. specialize (Hinv h Hraw). lia.
  - rewrite He in Hr. subst r. simpl. split_and!; [done| |done|].
    + exists []. by rewrite app_nil_r.
    + intros Hinv. rewrite handle_invalid in He; [by injection He as <-|].
      destruct (raw_handle (session w)) as [h|]; [by apply Hinv|done].
Qed.

(** ** Allocating and registering in one step *)





(** X16.  Both allocating methods look at the data type and the length
    before they look at the session or ask for memory: with a data type
    that has no C type, or a length that is negative or whose byte size
    does not fit an index, both raise the same error and leave the world
    as it was, whether or not a handle is held.  The error is the
    [ValueError] of the data type lookup when the data type is unknown; for
    a known data type it is [ValueError] for a negative length that fits
    an index and [OverflowError] for every other length refused. *)
Theorem get_data_buffers_checks_arguments_first (w : World)
    (address_max address_min : option Z) (channel n_samples data_type segment mode : Z)
    (clear_others : bool)
    (Hbad : match PicoDataType.sizeof_ctype data_type with
            | Returns size => n_samples < 0 ∨ PY_SSIZE_T_MAX / size < n_samples
            | Raises _ => True
            end) :
  ∃ e,
    get_data_buffers address_max address_min channel n_samples data_type segment mode
      clear_others w = (Raises e, w) ∧
    get_data_buffer address_max channel n_samples data_type segment mode clear_others w
      = (Raises e, w) ∧
    match PicoDataType.sizeof_ctype data_type with
    | Returns size =>
        (- PY_SSIZE_T_MAX - 1 ≤ n_samples < 0 → ∃ msg, e = ValueError msg) ∧
        (n_samples < - PY_SSIZE_T_MAX - 1 ∨ PY_SSIZE_T_MAX / size < n_samples →
         e = OverflowError)
    | Raises e' => e = e' ∧ ∃ msg, e' = ValueError msg
    end.
Proof.
  assert (Hnew : ∃ e, (∀ address, new_array data_type n_samples address = Raises e) ∧
            match PicoDataType.sizeof_ctype data_type with
            | Returns size =>
                (- PY_SSIZE_T_MAX - 1 ≤ n_samples < 0 → ∃ msg, e = ValueError msg) ∧
                (n_samples < - PY_SSIZE_T_MAX - 1 ∨ PY_SSIZE_T_MAX / size < n_samples →
                 e = OverflowError)
            | Raises e' => e = e' ∧ ∃ msg, e' = ValueError msg
            end).
  { unfold new_array.
    destruct (PicoDataType.sizeof_ctype data_type) as [size|e] eqn:Hsize; simpl.
    - assert (Hsz : 0 < size).
      { revert Hsize. unfold PicoDataType.sizeof_ctype.
        repeat match goal with |- context [if ?c then _ else _] => destruct c end;
          (done || (intros [= <-]; lia)). }
      assert (Hle : PY_SSIZE_T_MAX / size ≤ PY_SSIZE_T_MAX).
      { apply Z.div_le_upper_bound; [done|]. unfold PY_SSIZE_T_MAX. nia. }
      assert (Hge : 0 ≤ PY_SSIZE_T_MAX / size).
      { apply Z.div_pos; [unfold PY_SSIZE_T_MAX|]; lia. }
      destruct (n_samples <? - PY_SSIZE_T_MAX - 1) eqn:H1;
        [apply Z.ltb_lt in H1|apply Z.ltb_ge in H1]; simpl.
      { exists OverflowError. split; [done|]. split; [lia|done]. }
      destruct (PY_SSIZE_T_MAX <? n_samples) eqn:H2;
        [apply Z.ltb_lt in H2|apply Z.ltb_ge in H2]; simpl.
      { exists OverflowError. split; [done|]. split; [lia|done]. }
      destruct (n_samples <? 0) eqn:H3; [apply Z.ltb_lt in H3|apply Z.ltb_ge in H3].
      { eexists. split; [done|]. split; [by eexists|lia]. }
      destruct (PY_SSIZE_T_MAX / size <? n_samples) eqn:H4;
        [apply Z.ltb_lt in H4|apply Z.ltb_ge in H4].
      { exists OverflowError. split; [done|]. split; [lia|done]. }
      lia.
    - exists e. split; [done|]. split; [done|].
      revert Hsize. unfold PicoDataType.sizeof_ctype.
      repeat match goal with |- context [if ?c then _ else _] => destruct c end;
        try done. intros [= <-]. by eexists. }
  destruct Hnew as (e & Hnew & Hkind). exists e.
  unfold get_data_buffers, get_data_buffer, lift, mbind, Py_bind.
  by rewrite !Hnew.
Qed.

(** A request for [2 ^ 61] samples of eight bytes each, on a session that
    was never opened, raises [OverflowError]. *)
Lemma get_data_buffers_checks_arguments_first_witness :
  get_data_buffer (Some 4096) PicoChannel.CHANNEL_A (2 ^ 61) PicoDataType.INT64_T 0
    PicoRatioMode.RAW false world_new = (Raises OverflowError, world_new).
Proof.
  destruct (get_data_buffers_checks_arguments_first world_new (Some 4096) (Some 8192)
              PicoChannel.CHANNEL_A (2 ^ 61) PicoDataType.INT64_T 0 PicoRatioMode.RAW false)
    as (e & _ & Hone & _ & Hkind).
  - right. reflexivity.
  - rewrite Hone. f_equal. f_equal. apply Hkind. right. reflexivity.
Defined.

(** ** Closing and opening *)

Ltac run_py_in H :=
  unfold _verify_status, holds_valid_handle, get_raw_handle, get_buffers,
    set_raw_handle, set_last_status, set_buffers, logger_warning, dll_call, raise, lift,
    with_session, mbind, mret, Py_bind, Py_ret in H; simpl in H.

Lemma handle_absent (w : World) :
  raw_handle (session w) = None →
  handle w = (Raises (PicoHandleError None msg_no_handle), w).
Proof. intros Hraw. rewrite handle_invalid; by rewrite Hraw. Qed.

(** X17.  A close that succeeds sends one close for the held handle and
    forgets the handle, but keeps every registered buffer.  From then on
    the handle accessor, a second close, a clear, a reload and a streaming
    poll all raise the never-opened handle error and leave the world as it
    is, without a call to the device. *)
Theorem close_unit_forgets_handle_only (w w' : World)
    (Hclose : close_unit w = (Returns (), w')) :
  buffers (session w') = buffers (session w) ∧
  raw_handle (session w') = None ∧
  (∃ h, raw_handle (session w) = Some h ∧ 0 < h ∧
        calls w' = calls w ++ [ps6000aCloseUnit h]) ∧
  let refused {A} (m : Py A) := m w' = (Raises (PicoHandleError None msg_no_handle), w') in
  refused handle ∧ refused close_unit ∧
  (∀ channel data_type segment,
     refused (clear_data_buffers channel data_type segment) ∧
     refused (reload_data_buffers channel data_type segment)) ∧
  (∀ sdi, refused (get_streaming_latest_values sdi)).
Proof.
  destruct (handle_cases w) as [(h & Hraw & Hpos & _)|(e & He)].
  2:{ unfold close_unit in Hclose. unfold mbind at 1 in Hclose.
      unfold Py_bind at 1 in Hclose. by rewrite He in Hclose. }
  pose proof (close_unit_run w h Hraw Hpos) as Hrun. simpl in Hrun.
  rewrite Hclose in Hrun. case_bool_decide as Hs; [done|]. injection Hrun as ->.
  assert (Hh : ∀ w1, raw_handle (session w1) = None →
                handle w1 = (Raises (PicoHandleError None msg_no_handle), w1))
    by apply handle_absent.
  simpl. split_and!; [done|done|by exists h|..].
  - by apply Hh.
  - unfold close_unit, mbind, Py_bind. by rewrite Hh.
  - intros channel data_type segment. split.
    + unfold clear_data_buffers, mbind, Py_bind. by rewrite Hh.
    + unfold reload_data_buffers, mbind, Py_bind. by rewrite Hh.
  - intros sdi. unfold get_streaming_latest_values, mbind, Py_bind. by rewrite Hh.
Qed.

Lemma close_unit_forgets_handle_only_witness :
  buffers (session (close_unit world_with_pair).2) !! class_A = Some [agg_max; agg_min] ∧
  (close_unit (close_unit world_with_pair).2).1
    = Raises (PicoHandleError None msg_no_handle).
Proof.
  destruct (close_unit_forgets_handle_only world_with_pair (close_unit world_with_pair).2)
    as (Hbuf & _ & _ & _ & Hagain & _).
  - vm_compute. reflexivity.
  - split; [by rewrite Hbuf|by rewrite Hagain].
Defined.

Lemma holds_valid_handle_run (w : World) :
  ∃ b, holds_valid_handle w = (Returns b, w) ∧
       (b = true → ∃ h, raw_handle (session w) = Some h ∧ 0 < h) ∧
       (b = false → closes_first w = [] ∧ kept_handle w = raw_handle (session w)).
Proof.
  unfold holds_valid_handle, closes_first, kept_handle. run_py.
  eexists. split; [reflexivity|].
  destruct (raw_handle (session w)) as [h|]; [|done]. split.
  - intros Hv. exists h. split; [done|]. by apply valid_pos.
  - by intros ->.
Qed.

(** What the guard at the head of [open_unit] and [open_unit_progress]
    leaves behind when it lets the method go on. *)
Lemma guard_then_close (msg : string) (w w1 : World) (b : bool) :
  holds_valid_handle w = (Returns b, w) →
  (if b then logger_warning msg;; close_unit else mret ()) w = (Returns (), w1) →
  buffers (session w1) = buffers (session w) ∧ driver w1 = driver w ∧
  calls w1 = calls w ++ closes_first w ∧
  raw_handle (session w1) = kept_handle w ∧
  warnings w1 = warnings w ++ (if b then [msg] else []).
Proof.
  intros Hb Hguard.
  destruct (holds_valid_handle_run w) as (b' & Hb' & Hvalid & Hnone).
  rewrite Hb in Hb'. injection Hb' as <-.
  destruct b.
  - destruct (Hvalid eq_refl) as (h & Hraw & Hpos).
    unfold mbind, Py_bind, logger_warning in Hguard.
    match type of Hguard with context [close_unit ?w0] =>
      pose proof (close_unit_run w0 h Hraw Hpos) as Hrun
    end.
    simpl in Hrun. rewrite Hrun in Hguard. case_bool_decide; [done|].
    injection Hguard as <-. unfold closes_first, kept_handle. rewrite Hraw.
    apply valid_pos in Hpos. rewrite Hpos. done.
  - injection Hguard as <-. destruct (Hnone eq_refl) as [-> ->].
    by rewrite !app_nil_r.
Qed.

Lemma marshal_serial_returns (serial ser : option string) :
  ll.marshal_serial serial = Returns ser → ser = serial.
Proof.
  destruct serial as [s|]; simpl; [|by intros [= <-]].
  unfold ll.encode_ASCII. destruct (forallb _ _); simpl; [by intros [= <-]|done].
Qed.

(** X18.  When [open_unit] returns, the serial number could be encoded,
    the calls made are the close of a valid handle that was held, if any,
    and then the open, which is the last call; the driver answered the
    open with success, which is the status recorded; the handle stored is
    the very handle the driver handed back for that call, valid or not;
    the boolean returned is the validity of that handle, and says exactly
    whether the handle accessor now succeeds.  The registry is what it
    was. *)
Theorem open_unit_result (w w' : World) (serial : option string) (resolution : Z)
    (b : bool)
    (Hopen : open_unit serial resolution w = (Returns b, w')) :
  let c := ps6000aOpenUnit serial resolution in
  let r := driver w (calls w ++ closes_first w) c in
  ll.marshal_serial serial = Returns serial ∧
  calls w' = calls w ++ closes_first w ++ [c] ∧
  reply_status r = PicoStatus.OK ∧
  last_status (session w') = PicoStatus.OK ∧
  raw_handle (session w') = Some (reply_handle r) ∧
  b = PicoHandle.valid (reply_handle r) ∧
  buffers (session w') = buffers (session w) ∧
  (b = true ↔ ∃ h, handle w' = (Returns h, w')).
Proof.
  unfold open_unit in Hopen. unfold mbind at 1 in Hopen. unfold Py_bind at 1 in Hopen.
  destruct (holds_valid_handle_run w) as (b0 & Hb0 & _). rewrite Hb0 in Hopen.
  unfold mbind at 1 in Hopen. unfold Py_bind at 1 in Hopen.
  match type of Hopen with (let (_, _) := ?g in _) = _ =>
    destruct g as [[[]|e] w1] eqn:Hguard; [|done]
  end.
  destruct (guard_then_close _ w w1 b0 Hb0 Hguard) as (Hbuf & Hdrv & Hcs & _).
  unfold ll.open_unit in Hopen.
  destruct (ll.marshal_serial serial) as [ser|e] eqn:Hser; [|by run_py_in Hopen].
  apply marshal_serial_returns in Hser as Heq. subst ser.
  run_py_in Hopen. case_bool_decide as Hs; [done|].
  injection Hopen as <- <-. simpl. rewrite Hdrv, Hcs in *.
  split_and!; [done|by rewrite app_assoc|done..|].
  split.
  - intros Hv. eexists. apply handle_valid; [done|]. by apply valid_pos.
  - intros [h Hh]. apply handle_inv in Hh as ([= <-] & Hpos & _). by apply valid_pos.
Qed.

(** A session holding handle 1 opens again on a driver that hands back
    handle 7: handle 1 is closed first, handle 7 is stored, and the two
    registered buffers stay. *)
Lemma open_unit_result_witness :
  calls (open_unit None PicoDeviceResolution.DR_8BIT world_reopening).2
    = [ps6000aCloseUnit 1; ps6000aOpenUnit None PicoDeviceResolution.DR_8BIT] ∧
  raw_handle (session (open_unit None PicoDeviceResolution.DR_8BIT world_reopening).2)
    = Some 7 ∧
  buffers (session (open_unit None PicoDeviceResolution.DR_8BIT world_reopening).2)
    = buffers (session world_reopening).
Proof.
  destruct (open_unit_result world_reopening
              (open_unit None PicoDeviceResolution.DR_8BIT world_reopening).2
              None PicoDeviceResolution.DR_8BIT true ltac:(vm_compute; reflexivity))
    as (_ & Hcalls & _ & _ & Hraw & _ & Hbuf & _).
  split_and!; [exact Hcalls|exact Hraw|exact Hbuf].
Defined.

(** X19.  When [open_unit_progress] returns, the calls made are the close
    of a valid handle that was held, if any, and then the progress query,
    which the driver answered with success.  The boolean returned is true
    exactly when the driver reports the open complete and the handle it
    hands back is valid.  When the open is complete that handle is stored,
    valid or not; when it is not, the session keeps the handle it had
    unless that handle was valid, in which case it has been closed and
    forgotten.  So the boolean says exactly whether the handle accessor now
    succeeds.  The registry is what it was. *)
Theorem open_unit_progress_result (w w' : World) (b : bool)
    (Hopen : open_unit_progress w = (Returns b, w')) :
  let c := ps6000aOpenUnitProgress in
  let r := driver w (calls w ++ closes_first w) c in
  calls w' = calls w ++ closes_first w ++ [c] ∧
  reply_status r = PicoStatus.OK ∧
  last_status (session w') = PicoStatus.OK ∧
  raw_handle (session w')
    = (if reply_flag r then Some (reply_handle r) else kept_handle w) ∧
  b = reply_flag r && PicoHandle.valid (reply_handle r) ∧
  buffers (session w') = buffers (session w) ∧
  (b = true ↔ ∃ h, handle w' = (Returns h, w')).
Proof.
  unfold open_unit_progress in Hopen.
  unfold mbind at 1 in Hopen. unfold Py_bind at 1 in Hopen.
  destruct (holds_valid_handle_run w) as (b0 & Hb0 & _). rewrite Hb0 in Hopen.
  unfold mbind at 1 in Hopen. unfold Py_bind at 1 in Hopen.
  match type of Hopen with (let (_, _) := ?g in _) = _ =>
    destruct g as [[[]|e] w1] eqn:Hguard; [|done]
  end.
  destruct (guard_then_close _ w w1 b0 Hb0 Hguard) as (Hbuf & Hdrv & Hcs & Hkept & _).
  assert (Hno : ∀ h, kept_handle w = Some h → h ≤ 0).
  { unfold kept_handle. intros h. destruct (raw_handle (session w)) as [h0|]; [|done].
    destruct (PicoHandle.valid h0) eqn:Hv; [done|]. intros [= <-].
    destruct (decide (0 < h0)) as [Hpos|]; [|lia]. apply valid_pos in Hpos. congruence. }
  unfold ll.open_unit_progress in Hopen. run_py_in Hopen.
  case_bool_decide as Hs; [done|].
  rewrite Hdrv, Hcs in *. cbv zeta.
  destruct (reply_flag _) eqn:Hflag; simpl in Hopen; injection Hopen as <- <-; simpl;
    (split_and!; [by rewrite app_assoc|done..|]).
  - split.
    + intros Hv. eexists. apply handle_valid; [done|]. by apply valid_pos.
    + intros [h Hh]. apply handle_inv in Hh as ([= <-] & Hpos & _). by apply valid_pos.
  - split; [done|]. intros [h Hh]. apply handle_inv in Hh as (Hraw & Hpos & _).
    simpl in Hraw. rewrite Hkept in Hraw. specialize (Hno h Hraw). lia.
Qed.

(** A session holding handle 1 asks for progress while the open is still
    running: handle 1 is closed, the answer is false, and no handle is
    left. *)
Lemma open_unit_progress_result_witness :
  (open_unit_progress world_unfinished).1 = Returns false ∧
  calls (open_unit_progress world_unfinished).2
    = [ps6000aCloseUnit 1; ps6000aOpenUnitProgress] ∧
  raw_handle (session (open_unit_progress world_unfinished).2) = None.
Proof.
  destruct (open_unit_progress_result world_unfinished
              (open_unit_progress world_unfinished).2 false
              ltac:(vm_compute; reflexivity))
    as (Hcalls & _ & _ & Hraw & _).
  split_and!; [reflexivity|exact Hcalls|exact Hraw].
Defined.

(** ** What a streaming poll asks for *)




(** ** Pairing in a registry of MAX buffers *)

Lemma registry_wf_delete (k : BufferClass.t) (d : gmap BufferClass.t (list Buffer.t)) :
  registry_wf d → registry_wf (delete k d).
Proof.
  intros Hd k' s Hs. apply lookup_delete_Some in Hs as [_ Hs]. by apply Hd.
Qed.

Lemma registered_class (d : gmap BufferClass.t (list Buffer.t)) (b : Buffer.t) :
  registry_wf d → registered d b → is_Some (d !! Buffer.buffer_class b).
Proof.
  intros Hd (k & s & Hs & Hb). destruct (Hd k s Hs) as [_ Hcls].
  rewrite (Hcls b Hb). by exists s.
Qed.

Lemma compare_fields_class (a b : Buffer.t) :
  Buffer.compare_fields a = Buffer.compare_fields b →
  Buffer.buffer_class a = Buffer.buffer_class b.
Proof.
  unfold Buffer.compare_fields, Buffer.buffer_class. intros [= -> -> -> _ _]. done.
Qed.

(** In a well-kept registry no two buffers, of whatever class, are equal. *)
Lemma registry_wf_all_distinct (d : gmap BufferClass.t (list Buffer.t)) :
  registry_wf d → NoDup (Buffer.compare_fields <$> all_buffers d).
Proof.
  induction d as [|k s d Hk IH] using map_ind; intros Hwf.
  - unfold all_buffers, dict_values. rewrite map_to_list_empty. constructor.
  - assert (Hd : registry_wf d).
    { intros k' s' Hs'. apply Hwf. rewrite lookup_insert_ne; [done|]. congruence. }
    destruct (Hwf k s (lookup_insert_eq _ _ _)) as [Hs Hcls].
    rewrite all_buffers_insert, delete_id, fmap_app by done.
    apply NoDup_app. split_and!; [done| |by apply IH].
    intros f Hf Hf'.
    apply list_elem_of_fmap in Hf as (a & -> & Ha).
    apply list_elem_of_fmap in Hf' as (b & Hab & Hb).
    apply elem_of_all_buffers in Hb.
    destruct (registered_class d b Hd Hb) as [s' Hs'].
    rewrite <- (compare_fields_class _ _ Hab), (Hcls a Ha) in Hs'. congruence.
Qed.

Lemma pair_keys_of_max (l : list Buffer.t) :
  (∀ b, b ∈ l → Buffer.max_min b = MAX) →
  NoDup (Buffer.compare_fields <$> l) → NoDup (pair_key <$> l).
Proof.
  induction l as [|a l IH]; intros Hall Hnd; [constructor|].
  csimpl in *. apply NoDup_cons in Hnd as [Hnin Hnd].
  apply NoDup_cons. split; [|apply IH; [intros b Hb; apply Hall; by right|done]].
  intros Hin. apply Hnin. apply list_elem_of_fmap in Hin as (b & Hkey & Hb).
  apply list_elem_of_fmap. exists b. split; [|done].
  unfold pair_key in Hkey. unfold Buffer.compare_fields.
  rewrite (Hall a) by (by left). rewrite (Hall b) by (by right). congruence.
Qed.

(** X21.  In a registry as the methods keep it, holding MAX buffers only,
    the pairing returns, as a set and in no particular order, exactly one
    pair per registered buffer, the buffer in the MAX slot and the MIN
    slot empty, and changes nothing. *)
Theorem pairing_of_max_only (w : World) (channel data_type segment : Z)
    (Hwf : registry_wf (buffers (session w)))
    (Hmax : ∀ b, registered (buffers (session w)) b → Buffer.max_min b = MAX) :
  ∃ pairs,
    get_existing_data_buffer_pairs channel data_type segment w = (Returns pairs, w) ∧
    pairs ≡ₚ (λ b, (b, None)) <$> all_buffers (buffers (session w)) ∧
    (∀ b, registered (buffers (session w)) b ↔ (b, None) ∈ pairs) ∧
    (∀ p, p ∈ pairs → p.2 = None ∧ registered (buffers (session w)) p.1).
Proof.
  eexists. split_and!; [|done| |].
  - apply pairing_distinct_keys_run. apply pair_keys_of_max.
    + intros b Hb. apply Hmax. by apply elem_of_all_buffers.
    + by apply registry_wf_all_distinct.
  - intros b. rewrite <- elem_of_all_buffers. split.
    + intros Hb. by apply (list_elem_of_fmap_2 (λ b, (b, None))).
    + intros Hb. apply list_elem_of_fmap in Hb as (b' & [= ->] & Hb'). done.
  - intros p Hp. apply list_elem_of_fmap in Hp as (b & -> & Hb).
    split; [done|]. by apply elem_of_all_buffers.
Qed.

Lemma pairing_of_max_only_witness :
  ∃ pairs,
    (get_existing_data_buffer_pairs PicoChannel.CHANNEL_A PicoDataType.INT8_T 0
       world_two_modes).1 = Returns pairs ∧
    (raw_max, None) ∈ pairs.
Proof.
  destruct (pairing_of_max_only world_two_modes PicoChannel.CHANNEL_A PicoDataType.INT8_T 0)
    as (pairs & Hrun & _ & Hin & _).
  - intros k s Hs. simpl in Hs. apply lookup_singleton_Some in Hs as [<- <-]. split.
    + unfold set_wf. vm_compute.
      repeat constructor; rewrite ?elem_of_cons, ?elem_of_nil; intuition congruence.
    + intros b Hb. rewrite !elem_of_cons, elem_of_nil in Hb. by destruct Hb as [->|[->|[]]].
  - intros b (k & s & Hs & Hb). simpl in Hs. apply lookup_singleton_Some in Hs as [<- <-].
    rewrite !elem_of_cons, elem_of_nil in Hb. by destruct Hb as [->|[->|[]]].
  - exists pairs. split; [by rewrite Hrun|]. apply Hin.
    exists class_A, [agg_max; raw_max]. split; [reflexivity|]. right. by left.
Defined.

(** ** Reloading a registry of distinct keys *)




